(** * Literature analysis page: registry, submission, validation, export

    A shallow embedding of [src/app/page.tsx], the single React component
    [LiteratureAnalysisApp].  The component's [useState] cells become the
    fields of one record, its event handlers become functions on that
    record, and everything the host supplies (clock, random source, URL
    constructor, serializer, the remote engine) is an explicit argument. *)

From Stdlib Require Import List Arith NArith Bool Ascii String DecimalN Lia.
Import ListNotations.

(** ** Strings

    A JavaScript string is a sequence of UTF-16 code units. *)

Definition Str : Type := list N.

(** The code units of an ASCII literal. *)
Definition lit (s : string) : Str := map N_of_ascii (list_ascii_of_string s).

(** [s] between double quotes (code unit 34). *)
Definition quoted (s : Str) : Str := 34%N :: s ++ [34%N].

Module Js.

Fixpoint eqb (a b : Str) : bool :=
  match a, b with
  | [], [] => true
  | x :: a', y :: b' => N.eqb x y && eqb a' b'
  | _, _ => false
  end.

(** [s.startsWith(p)] *)
Fixpoint startsWith (s p : Str) {struct p} : bool :=
  match p, s with
  | [], _ => true
  | c :: p', d :: s' => N.eqb c d && startsWith s' p'
  | _ :: _, [] => false
  end.

(** [s.endsWith(p)] *)
Definition endsWith (s p : Str) : bool := startsWith (rev s) (rev p).

(** WhiteSpace and LineTerminator code units, the ones [trim] strips. *)
Definition isWhiteSpace (c : N) : bool :=
  ((9 <=? c) && (c <=? 13) || (c =? 32) || (c =? 160) || (c =? 5760)
   || (8192 <=? c) && (c <=? 8202) || (c =? 8232) || (c =? 8233)
   || (c =? 8239) || (c =? 8287) || (c =? 12288) || (c =? 65279))%N.

Fixpoint trimStart (s : Str) : Str :=
  match s with
  | c :: s' => if isWhiteSpace c then trimStart s' else s
  | [] => []
  end.

Definition trimEnd (s : Str) : Str := rev (trimStart (rev s)).

(** [s.trim()] *)
Definition trim (s : Str) : Str := trimEnd (trimStart s).

Definition isDigit (c : N) : bool := ((48 <=? c) && (c <=? 57))%N.

(** [s.toUpperCase()] on the letters a-z; the other code units are kept.
    The program only upper-cases the four category names. *)
Definition upper (c : N) : N :=
  if ((97 <=? c) && (c <=? 122))%N then (c - 32)%N else c.

Definition toUpperCase (s : Str) : Str := map upper s.

Definition isEmpty (s : Str) : bool :=
  match s with [] => true | _ => false end.

(** [parts.join(sep)] *)
Fixpoint join (sep : Str) (parts : list Str) : Str :=
  match parts with
  | [] => []
  | [p] => p
  | p :: rest => p ++ sep ++ join sep rest
  end.

(** [s.split(sep)[0]] for a one-unit separator: the text before its first
    occurrence, or all of [s] when it does not occur. *)
Fixpoint beforeFirst (sep : N) (s : Str) : Str :=
  match s with
  | [] => []
  | c :: s' => if N.eqb c sep then [] else c :: beforeFirst sep s'
  end.

End Js.

(** ** Values

    What [response.json()] and [JSON.parse] deliver, plus [undefined], the
    result of reading a property that is not there.  A number is kept as the
    text of its literal: which double it denotes, and so whether it is zero,
    is the host's business (see [number_is_zero] below).  An object keeps
    its members in the order they were first written. *)

#[warnings="-register-all"]
Inductive Value : Type :=
| VUndefined
| VNull
| VBool (b : bool)
| VNumber (literal : Str)
| VString (s : Str)
| VArray (elems : list Value)
| VObject (members : list (Str * Value)).

Fixpoint lookup (k : Str) (ms : list (Str * Value)) : option Value :=
  match ms with
  | [] => None
  | (k', v) :: ms' => if Js.eqb k k' then Some v else lookup k ms'
  end.

(** Writing member [k]: an existing member keeps its place and takes the
    new value, a new one goes to the end. *)
Fixpoint obj_set (k : Str) (v : Value) (ms : list (Str * Value))
  : list (Str * Value) :=
  match ms with
  | [] => [(k, v)]
  | (k', v') :: ms' =>
      if Js.eqb k k' then (k', v) :: ms' else (k', v') :: obj_set k v ms'
  end.

(** A member of an object, [undefined] when it has none of that name. *)
Definition field (k : Str) (ms : list (Str * Value)) : Value :=
  match lookup k ms with
  | Some v => v
  | None => VUndefined
  end.

(** [v?.k], for the same field names as [get] below. *)
Definition get_opt (v : Value) (k : Str) : Value :=
  match v with
  | VObject ms => field k ms
  | _ => VUndefined
  end.

(** [v ?? d] *)
Definition nullish (v d : Value) : Value :=
  match v with VUndefined | VNull => d | _ => v end.

(** ** JSON.parse

    A lexer and a push-down parser for the JSON grammar, each one pass over
    its input, so [JSON_parse] is total: [None] is the [SyntaxError]. *)

Module Json.

Inductive Token : Type :=
| TLBrace | TRBrace | TLBracket | TRBracket | TColon | TComma
| TString (s : Str) | TNumber (literal : Str)
| TTrue | TFalse | TNull.

(** Where the lexer stands inside a number: an optional minus, then a
    single 0 or a digit string not starting with 0, then optionally a dot
    with one or more digits, then optionally e or E, an optional sign and
    one or more digits. *)
Inductive NumStage : Type :=
| NMinus | NZero | NInt | NDot | NFrac | NExp | NExpSign | NExpDigits.

Definition num_accepting (st : NumStage) : bool :=
  match st with
  | NZero | NInt | NFrac | NExpDigits => true
  | _ => false
  end.

Definition is_e (c : N) : bool := ((c =? 101) || (c =? 69))%N.
Definition is_dot (c : N) : bool := (c =? 46)%N.
Definition is_sign (c : N) : bool := ((c =? 43) || (c =? 45))%N.

Definition num_step (st : NumStage) (c : N) : option NumStage :=
  match st with
  | NMinus =>
      if (c =? 48)%N then Some NZero
      else if Js.isDigit c then Some NInt else None
  | NZero =>
      if is_dot c then Some NDot else if is_e c then Some NExp else None
  | NInt =>
      if Js.isDigit c then Some NInt
      else if is_dot c then Some NDot
      else if is_e c then Some NExp else None
  | NDot => if Js.isDigit c then Some NFrac else None
  | NFrac =>
      if Js.isDigit c then Some NFrac
      else if is_e c then Some NExp else None
  | NExp =>
      if is_sign c then Some NExpSign
      else if Js.isDigit c then Some NExpDigits else None
  | NExpSign => if Js.isDigit c then Some NExpDigits else None
  | NExpDigits => if Js.isDigit c then Some NExpDigits else None
  end.

(** Lexer modes; the accumulators are kept reversed. *)
Inductive Mode : Type :=
| LIdle
| LString (acc : Str)
| LEscape (acc : Str)
| LUnicode (acc : Str) (remaining : nat) (code : N)
| LNumber (stage : NumStage) (acc : Str)
| LWord (rest : Str) (tok : Token).

Definition hex_digit (c : N) : option N :=
  if Js.isDigit c then Some (c - 48)%N
  else if ((97 <=? c) && (c <=? 102))%N then Some (c - 87)%N
  else if ((65 <=? c) && (c <=? 70))%N then Some (c - 55)%N
  else None.

Definition is_json_space (c : N) : bool :=
  ((c =? 32) || (c =? 9) || (c =? 10) || (c =? 13))%N.

Definition idle_step (c : N) : option (Mode * list Token) :=
  if is_json_space c then Some (LIdle, [])
  else if (c =? 123)%N then Some (LIdle, [TLBrace])
  else if (c =? 125)%N then Some (LIdle, [TRBrace])
  else if (c =? 91)%N then Some (LIdle, [TLBracket])
  else if (c =? 93)%N then Some (LIdle, [TRBracket])
  else if (c =? 58)%N then Some (LIdle, [TColon])
  else if (c =? 44)%N then Some (LIdle, [TComma])
  else if (c =? 34)%N then Some (LString [], [])
  else if (c =? 45)%N then Some (LNumber NMinus [c], [])
  else if (c =? 48)%N then Some (LNumber NZero [c], [])
  else if Js.isDigit c then Some (LNumber NInt [c], [])
  else if (c =? 116)%N then Some (LWord (lit "rue") TTrue, [])
  else if (c =? 102)%N then Some (LWord (lit "alse") TFalse, [])
  else if (c =? 110)%N then Some (LWord (lit "ull") TNull, [])
  else None.

Definition escape_step (acc : Str) (c : N) : option Mode :=
  if ((c =? 34) || (c =? 92) || (c =? 47))%N then Some (LString (c :: acc))
  else if (c =? 98)%N then Some (LString (8%N :: acc))
  else if (c =? 102)%N then Some (LString (12%N :: acc))
  else if (c =? 110)%N then Some (LString (10%N :: acc))
  else if (c =? 114)%N then Some (LString (13%N :: acc))
  else if (c =? 116)%N then Some (LString (9%N :: acc))
  else if (c =? 117)%N then Some (LUnicode acc 4 0%N)
  else None.

Definition lex_step (m : Mode) (c : N) : option (Mode * list Token) :=
  match m with
  | LIdle => idle_step c
  | LString acc =>
      if (c =? 34)%N then Some (LIdle, [TString (rev acc)])
      else if (c =? 92)%N then Some (LEscape acc, [])
      else if (c <? 32)%N then None
      else Some (LString (c :: acc), [])
  | LEscape acc => option_map (fun m' => (m', [])) (escape_step acc c)
  | LUnicode acc remaining code =>
      match hex_digit c, remaining with
      | Some h, 1 => Some (LString ((code * 16 + h)%N :: acc), [])
      | Some h, S k => Some (LUnicode acc k (code * 16 + h)%N, [])
      | _, _ => None
      end
  | LNumber st acc =>
      match num_step st c with
      | Some st' => Some (LNumber st' (c :: acc), [])
      | None =>
          if num_accepting st then
            option_map (fun r => (fst r, TNumber (rev acc) :: snd r))
                       (idle_step c)
          else None
      end
  | LWord rest tok =>
      match rest with
      | [] => None
      | d :: rest' =>
          if (c =? d)%N then
            match rest' with
            | [] => Some (LIdle, [tok])
            | _ => Some (LWord rest' tok, [])
            end
          else None
      end
  end.

Definition lex_end (m : Mode) : option (list Token) :=
  match m with
  | LIdle => Some []
  | LNumber st acc =>
      if num_accepting st then Some [TNumber (rev acc)] else None
  | _ => None
  end.

Fixpoint lex_from (m : Mode) (s : Str) : option (list Token) :=
  match s with
  | [] => lex_end m
  | c :: s' =>
      match lex_step m c with
      | None => None
      | Some (m', toks) => option_map (app toks) (lex_from m' s')
      end
  end.

Definition lex (s : Str) : option (list Token) := lex_from LIdle s.

(** The parser's stack: containers under construction. *)
Inductive Frame : Type :=
| FArray (elems : list Value)
| FObject (members : list (Str * Value))
| FMember (members : list (Str * Value)) (key : Str).

Inductive Expect : Type :=
| PValue | PArrayStart | PObjectStart | PKey | PColon | PAfterValue
| PDone (v : Value).

Definition PState : Type := (Expect * list Frame)%type.

(** A finished value goes to the container on top of the stack. *)
Definition deliver (v : Value) (stack : list Frame) : option PState :=
  match stack with
  | [] => Some (PDone v, [])
  | FArray es :: st => Some (PAfterValue, FArray (v :: es) :: st)
  | FMember ms k :: st => Some (PAfterValue, FObject (obj_set k v ms) :: st)
  | FObject _ :: _ => None
  end.

Definition close_array (stack : list Frame) : option PState :=
  match stack with
  | FArray es :: st => deliver (VArray (rev es)) st
  | _ => None
  end.

Definition close_object (stack : list Frame) : option PState :=
  match stack with
  | FObject ms :: st => deliver (VObject ms) st
  | _ => None
  end.

Definition start_value (t : Token) (stack : list Frame) : option PState :=
  match t with
  | TLBracket => Some (PArrayStart, FArray [] :: stack)
  | TLBrace => Some (PObjectStart, FObject [] :: stack)
  | TString s => deliver (VString s) stack
  | TNumber l => deliver (VNumber l) stack
  | TTrue => deliver (VBool true) stack
  | TFalse => deliver (VBool false) stack
  | TNull => deliver VNull stack
  | _ => None
  end.

Definition start_member (t : Token) (stack : list Frame) : option PState :=
  match t, stack with
  | TString k, FObject ms :: st => Some (PColon, FMember ms k :: st)
  | _, _ => None
  end.

Definition parse_step (p : PState) (t : Token) : option PState :=
  let (e, stack) := p in
  match e with
  | PValue => start_value t stack
  | PArrayStart =>
      match t with
      | TRBracket => close_array stack
      | _ => start_value t stack
      end
  | PObjectStart =>
      match t with
      | TRBrace => close_object stack
      | _ => start_member t stack
      end
  | PKey => start_member t stack
  | PColon =>
      match t with
      | TColon => Some (PValue, stack)
      | _ => None
      end
  | PAfterValue =>
      match t, stack with
      | TComma, FArray _ :: _ => Some (PValue, stack)
      | TComma, FObject _ :: _ => Some (PKey, stack)
      | TRBracket, _ => close_array stack
      | TRBrace, _ => close_object stack
      | _, _ => None
      end
  | PDone _ => None
  end.

Fixpoint parse_from (p : PState) (ts : list Token) : option Value :=
  match ts with
  | [] => match p with (PDone v, []) => Some v | _ => None end
  | t :: ts' =>
      match parse_step p t with
      | None => None
      | Some p' => parse_from p' ts'
      end
  end.

Definition parse (s : Str) : option Value :=
  match lex s with
  | None => None
  | Some ts => parse_from (PValue, []) ts
  end.

End Json.

Definition JSON_parse : Str -> option Value := Json.parse.



(** ** The component's state *)

Inductive FileType : Type := doi | url | bibtex | pdf.

(** The string a category is at run time. *)
Definition FileType_text (t : FileType) : Str :=
  match t with
  | doi => lit "doi"
  | url => lit "url"
  | bibtex => lit "bibtex"
  | pdf => lit "pdf"
  end.

Record UploadedFile : Type := {
  id : Str;
  name : Str;
  type : FileType;
  content : Str
}.

(** The [useState] cells of [LiteratureAnalysisApp].  [result] and [error]
    hold [VNull] for [null]; [copiedIndex] holds [None] for [null]. *)
Record App : Type := {
  files : list UploadedFile;
  isDragging : bool;
  loading : bool;
  result : Value;
  showExportDialog : bool;
  activeTab : Str;
  copiedIndex : option Str;
  urlInput : Str;
  error : Value
}.

Definition initial : App := {|
  files := [];
  isDragging := false;
  loading := false;
  result := VNull;
  showExportDialog := false;
  activeTab := lit "markdown";
  copiedIndex := None;
  urlInput := [];
  error := VNull
|}.

Definition setFiles (f : list UploadedFile -> list UploadedFile) (st : App) : App :=
  {| files := f (files st); isDragging := isDragging st; loading := loading st;
     result := result st; showExportDialog := showExportDialog st;
     activeTab := activeTab st; copiedIndex := copiedIndex st;
     urlInput := urlInput st; error := error st |}.

Definition setLoading (b : bool) (st : App) : App :=
  {| files := files st; isDragging := isDragging st; loading := b;
     result := result st; showExportDialog := showExportDialog st;
     activeTab := activeTab st; copiedIndex := copiedIndex st;
     urlInput := urlInput st; error := error st |}.

Definition setResult (r : Value) (st : App) : App :=
  {| files := files st; isDragging := isDragging st; loading := loading st;
     result := r; showExportDialog := showExportDialog st;
     activeTab := activeTab st; copiedIndex := copiedIndex st;
     urlInput := urlInput st; error := error st |}.

Definition setCopiedIndex (c : option Str) (st : App) : App :=
  {| files := files st; isDragging := isDragging st; loading := loading st;
     result := result st; showExportDialog := showExportDialog st;
     activeTab := activeTab st; copiedIndex := c;
     urlInput := urlInput st; error := error st |}.

Definition setUrlInput (s : Str) (st : App) : App :=
  {| files := files st; isDragging := isDragging st; loading := loading st;
     result := result st; showExportDialog := showExportDialog st;
     activeTab := activeTab st; copiedIndex := copiedIndex st;
     urlInput := s; error := error st |}.

Definition setError (e : Value) (st : App) : App :=
  {| files := files st; isDragging := isDragging st; loading := loading st;
     result := result st; showExportDialog := showExportDialog st;
     activeTab := activeTab st; copiedIndex := copiedIndex st;
     urlInput := urlInput st; error := e |}.

(** The one function ever passed to [setTimeout]:
    [() => setCopiedIndex(null)]. *)
Inductive Callback : Type := ClearCopied.

(** The object serialized into the body of the request to [/api/agent]. *)
Record Request : Type := { message : Str; agent_id : Str }.

(** [new Blob(blobParts, { type: mime })] *)
Record Blob : Type := { blobParts : list Value; mime : Str }.

(** What a handler asks of the host besides the state update.  Of a
    [console.error] call only the leading label is kept; [Download] is the
    click on a link to [file] whose [download] attribute is the name. *)
Inductive Effect : Type :=
| ConsoleError (label : Str)
| ClipboardWrite (text : Str)
| SetTimeout (cb : Callback) (delay : N)
| Fetch (rq : Request)
| Download (file : Blob) (download : Str).

(** ** Ingestion: [processFiles], [removeFile], [addUrl] *)

(** A browser [File]: its name and declared content type. *)
Record File : Type := { file_name : Str; file_type : Str }.

(** The decimal digits of [Date.now()]. *)
Fixpoint uint_units (d : Decimal.uint) : Str :=
  match d with
  | Decimal.Nil => []
  | Decimal.D0 d' => 48%N :: uint_units d'
  | Decimal.D1 d' => 49%N :: uint_units d'
  | Decimal.D2 d' => 50%N :: uint_units d'
  | Decimal.D3 d' => 51%N :: uint_units d'
  | Decimal.D4 d' => 52%N :: uint_units d'
  | Decimal.D5 d' => 53%N :: uint_units d'
  | Decimal.D6 d' => 54%N :: uint_units d'
  | Decimal.D7 d' => 55%N :: uint_units d'
  | Decimal.D8 d' => 56%N :: uint_units d'
  | Decimal.D9 d' => 57%N :: uint_units d'
  end.

Definition decimal (n : N) : Str := uint_units (N.to_uint n).

(** What the host hands out when an id is made: [Date.now()], in
    milliseconds, and the text [Math.random()] converts to. *)
Record Draw : Type := { now : N; random : Str }.

(** [`${Date.now()}-${Math.random()}`] *)
Definition fresh_id (d : Draw) : Str := decimal (now d) ++ lit "-" ++ random d.

(** [content.match(/^10\.\d+/)], as a truth value. *)
Definition match_doi (content : Str) : bool :=
  Js.startsWith content (lit "10.")
  && match skipn 3 content with
     | c :: _ => Js.isDigit c
     | [] => false
     end.

(** The category chosen in [reader.onload]. *)
Definition classify (file : File) (content : Str) : FileType :=
  if Js.endsWith (file_name file) (lit ".bib")
     || Js.eqb (file_type file) (lit "text/plain")
  then bibtex
  else if Js.eqb (file_type file) (lit "application/pdf") then pdf
  else if Js.startsWith content (lit "http") then url
  else if match_doi content then doi
  else pdf.

(** [x || d] on strings: the empty string is falsy. *)
Definition or_else (x d : Str) : Str :=
  match x with [] => d | _ => x end.

(** [reader.onload] for one file of [processFiles], once its text is read. *)
Definition onload (file : File) (content : Str) (d : Draw) (st : App) : App :=
  let newFile := {| id := fresh_id d;
                    name := or_else (file_name file) (lit "Untitled");
                    type := classify file content;
                    content := content |} in
  setFiles (fun prev => prev ++ [newFile]) st.

(** [processFiles] starts one reader per file and each reader runs [onload]
    when its text is in: [loads] lists the files of one call with their text
    and the draw made for them, in the order the reads complete. *)
Definition processFiles (loads : list (File * Str * Draw)) (st : App) : App :=
  fold_left (fun st' l => onload (fst (fst l)) (snd (fst l)) (snd l) st')
            loads st.

Definition removeFile (i : Str) (st : App) : App :=
  setFiles (fun prev => filter (fun f => negb (Js.eqb (id f) i)) prev) st.

(** ** Completions

    A statement either completes or throws; [instanceof Error] is all the
    program asks of what was thrown. *)

Inductive Thrown : Type :=
| ThrownError (message : Str)
| ThrownOther.

Inductive Completion (A : Type) : Type :=
| Normal (a : A)
| Throw (e : Thrown).

Arguments Normal {A} a.
Arguments Throw {A} e.

Definition bind {A B : Type} (c : Completion A) (k : A -> Completion B)
  : Completion B :=
  match c with
  | Normal a => k a
  | Throw e => Throw e
  end.

(** ** The host

    What the browser decides and the program only calls. *)
Class Host : Type := {
  (** whether the double a number literal denotes is zero *)
  number_is_zero : Str -> bool;
  (** the message of the [TypeError] raised by reading property [k] of
      [null] or [undefined] *)
  null_read_message : Str -> Str;
  (** whether [new URL(s)] returns rather than throws *)
  URL_ok : Str -> bool;
  (** [JSON.stringify(v, null, indent)] *)
  JSON_stringify : Value -> N -> Str
}.

Section Handlers.

Context {host : Host}.

Definition addUrl (d : Draw) (st : App) : App * list Effect :=
  if Js.isEmpty (Js.trim (urlInput st)) then (st, [])
  else
    let u := Js.trim (urlInput st) in
    if URL_ok u then
      let newFile := {| id := fresh_id d; name := u; type := url;
                        content := u |} in
      (setUrlInput [] (setFiles (fun prev => prev ++ [newFile]) st), [])
    else
      (setUrlInput [] st, [ConsoleError (lit "Invalid URL format")]).

(** *** Truthiness and property reads *)

Definition ToBoolean (v : Value) : bool :=
  match v with
  | VUndefined | VNull => false
  | VBool b => b
  | VNumber l => negb (number_is_zero l)
  | VString s => negb (Js.isEmpty s)
  | VArray _ | VObject _ => true
  end.

(** [a || b] *)
Definition or_value (a b : Value) : Value := if ToBoolean a then a else b.

Notation "x <- c ;; k" := (bind c (fun x => k))
  (at level 61, c at next level, right associativity).

(** [v.k] for the field names this program reads ([success], [error],
    [response], [metadata], [markdown_output], [json_output]): an object
    gives its own member, [null] and [undefined] throw, and arrays, strings,
    numbers and booleans have no property of these names. *)
Definition get (v : Value) (k : Str) : Completion Value :=
  match v with
  | VNull | VUndefined => Throw (ThrownError (null_read_message k))
  | _ => Normal (get_opt v k)
  end.

(** *** [generateReview] *)

Definition prompt : Str :=
  lit "Process these research materials and generate a comprehensive literature review with standardized metadata extraction, 150-word summaries per paper, and a comparative analysis table:"
  ++ [10; 10]%N.

Definition format_file (f : UploadedFile) : Str :=
  lit "[" ++ Js.toUpperCase (FileType_text (type f)) ++ lit "]: " ++ content f.

Definition formattedInput (fs : list UploadedFile) : Str :=
  Js.join [10; 10]%N (map format_file fs).

(** Up to the [await]: the guard, the two setters and the request. *)
Definition generateReview_start (st : App) : App * list Effect :=
  if (List.length (files st) =? 0)%nat then (st, [])
  else
    (setError VNull (setLoading true st),
     [Fetch {| message := prompt ++ formattedInput (files st);
               agent_id := lit "6901b293cb70cd01d3072e42" |}]).

Definition err_generate : Str := lit "Failed to generate review".
Definition err_no_response : Str := lit "No response from agent".
Definition err_parse : Str := lit "Failed to parse agent response".
Definition err_format : Str := lit "Invalid response format - missing metadata".
Definition err_unexpected : Str := lit "An unexpected error occurred".

(** The [try] block from [const data = ...] on, for the decoded body
    [data]; every [return] leaves through [Normal]. *)
Definition validate (data : Value) (st : App) : Completion (App * list Effect) :=
  success <- get data (lit "success") ;;
  if negb (ToBoolean success) then
    e <- get data (lit "error") ;;
    Normal (setError (or_value e (VString err_generate)) st, [])
  else
    response <- get data (lit "response") ;;
    if negb (ToBoolean response) then
      Normal (setError (VString err_no_response) st, [])
    else
      match (match response with
             | VString text => JSON_parse text
             | _ => Some response
             end) with
      | None =>
          Normal (setError (VString err_parse) st,
                  [ConsoleError (lit "Parse error:")])
      | Some parsed =>
          if negb (ToBoolean parsed) then
            Normal (setError (VString err_format) st, [])
          else
            metadata <- get parsed (lit "metadata") ;;
            if negb (ToBoolean metadata) then
              Normal (setError (VString err_format) st, [])
            else
              Normal (setResult parsed st, [])
      end.

(** How the awaited [fetch(...)] and [response.json()] end. *)
Inductive Reply : Type :=
| Replied (data : Value)
| Rejected (e : Thrown).

(** After the [await]: the rest of the [try], the [catch], the [finally]. *)
Definition generateReview_resume (r : Reply) (st : App) : App * list Effect :=
  let tried :=
    match r with
    | Replied data => validate data st
    | Rejected e => Throw e
    end in
  let (st', effects) :=
    match tried with
    | Normal done => done
    | Throw e =>
        (setError (VString (match e with
                            | ThrownError m => m
                            | ThrownOther => err_unexpected
                            end)) st,
         [ConsoleError (lit "Error generating review:")])
    end in
  (setLoading false st', effects).

(** One whole run against an engine that answers each request at once. *)
Definition generateReview (engine : Request -> Reply) (st : App)
  : App * list Effect :=
  match generateReview_start st with
  | (st1, [Fetch rq]) =>
      let (st2, effects) := generateReview_resume (engine rq) st1 in
      (st2, Fetch rq :: effects)
  | other => other
  end.

(** *** Views and exports *)

(** The child of the markdown tab's [<pre>]. *)
Definition proseView (st : App) : Value :=
  nullish (get_opt (result st) (lit "markdown_output"))
          (VString (lit "No markdown output available")).

(** The child of the JSON tab's [<pre>]. *)
Definition structuredView (st : App) : Str :=
  JSON_stringify (nullish (get_opt (result st) (lit "json_output")) (VObject [])) 2.

(** [`literature-review-${iso.split('T')[0]}.${ext}`], [iso] being
    [new Date().toISOString()]. *)
Definition export_name (iso ext : Str) : Str :=
  lit "literature-review-" ++ Js.beforeFirst 84 iso ++ lit "." ++ ext.

Definition exportMarkdown (iso : Str) (st : App) : App * list Effect :=
  let md := get_opt (result st) (lit "markdown_output") in
  if negb (ToBoolean md) then (st, [])
  else
    (st, [Download {| blobParts := [md]; mime := lit "text/markdown" |}
                   (export_name iso (lit "md"))]).

Definition exportJSON (iso : Str) (st : App) : App * list Effect :=
  let js := get_opt (result st) (lit "json_output") in
  if negb (ToBoolean js) then (st, [])
  else
    (st, [Download {| blobParts := [VString (JSON_stringify js 2)];
                      mime := lit "application/json" |}
                   (export_name iso (lit "json"))]).

(** *** The copied indicator *)

Definition copyToClipboard (text i : Str) (st : App) : App * list Effect :=
  (setCopiedIndex (Some i) st, [ClipboardWrite text; SetTimeout ClearCopied 2000]).

(** [copiedIndex === target ? 'Copied' : 'Copy'] *)
Definition copyLabel (target : Str) (st : App) : Str :=
  match copiedIndex st with
  | Some c => if Js.eqb c target then lit "Copied" else lit "Copy"
  | None => lit "Copy"
  end.

Definition run_callback (cb : Callback) (st : App) : App :=
  match cb with
  | ClearCopied => setCopiedIndex None st
  end.

End Handlers.

(** ** Timers

    The page and the host's timer queue.  Pending timers are kept in firing
    order: by due time, and in the order of their scheduling when due at the
    same time. *)

Record World : Type := {
  page : App;
  clock : N;
  timers : list (N * Callback)
}.

Definition world0 : World := {| page := initial; clock := 0; timers := [] |}.

Fixpoint schedule (due : N) (cb : Callback) (ts : list (N * Callback))
  : list (N * Callback) :=
  match ts with
  | [] => [(due, cb)]
  | (d, c) :: ts' =>
      if (d <=? due)%N then (d, c) :: schedule due cb ts'
      else (due, cb) :: ts
  end.

Definition absorb (w : World) (e : Effect) : World :=
  match e with
  | SetTimeout cb delay =>
      {| page := page w; clock := clock w;
         timers := schedule (clock w + delay) cb (timers w) |}
  | _ => w
  end.

(** Run a handler now. *)
Definition dispatch (h : App -> App * list Effect) (w : World) : World :=
  let (st, effects) := h (page w) in
  fold_left absorb effects {| page := st; clock := clock w; timers := timers w |}.

Definition fire (t : N) (st : App) (timer : N * Callback) : App :=
  if (fst timer <=? t)%N then run_callback (snd timer) st else st.

(** Let the clock reach [t]: every timer due by then fires, in order. *)
Definition elapse (t : N) (w : World) : World :=
  {| page := fold_left (fire t) (timers w) (page w);
     clock := N.max (clock w) t;
     timers := filter (fun timer => negb (fst timer <=? t)%N) (timers w) |}.

(** Run a handler at time [t]. *)
Definition at_time (t : N) (h : App -> App * list Effect) (w : World) : World :=
  dispatch h (elapse t w).

(** ** A host to run examples on

    Enough of a browser to evaluate the handlers: a literal is zero when its
    digits before the exponent are all 0, a URL is accepted when it is
    [http://] or [https://] followed by a host name, and the serializer
    prints numbers as their literals. *)

Module Demo.

Definition mantissa_is_zero (l : Str) : bool :=
  forallb (fun c => negb (Js.isDigit c) || (c =? 48)%N)
          (Js.beforeFirst 69 (Js.beforeFirst 101 l)).

Definition read_message (k : Str) : Str :=
  lit "Cannot read properties of null (reading '" ++ k ++ lit "')".

Definition has_host (s : Str) : bool :=
  match s with
  | c :: _ => negb (c =? 47)%N && negb (Js.isWhiteSpace c)
  | [] => false
  end.

Definition url_ok (s : Str) : bool :=
  (Js.startsWith s (lit "http://") && has_host (skipn 7 s))
  || (Js.startsWith s (lit "https://") && has_host (skipn 8 s)).

Definition hex (n : N) : N := if (n <? 10)%N then (48 + n)%N else (87 + n)%N.

Definition escape (c : N) : Str :=
  if (c =? 34)%N then [92; 34]%N
  else if (c =? 92)%N then [92; 92]%N
  else if (c =? 8)%N then [92; 98]%N
  else if (c =? 9)%N then [92; 116]%N
  else if (c =? 10)%N then [92; 110]%N
  else if (c =? 12)%N then [92; 102]%N
  else if (c =? 13)%N then [92; 114]%N
  else if (c <? 32)%N then [92; 117; 48; 48; hex (c / 16); hex (c mod 16)]%N
  else [c].

Definition quote (s : Str) : Str := quoted (flat_map escape s).

Definition wrap (open close gap cur : Str) (items : list Str) : Str :=
  match items, gap with
  | [], _ => open ++ close
  | _, [] => open ++ Js.join (lit ",") items ++ close
  | _, _ =>
      open ++ [10%N] ++ cur ++ gap
      ++ Js.join (lit "," ++ [10%N] ++ cur ++ gap) items
      ++ [10%N] ++ cur ++ close
  end.

Fixpoint serialize (gap cur : Str) (v : Value) : Str :=
  match v with
  | VUndefined | VNull => lit "null"
  | VBool true => lit "true"
  | VBool false => lit "false"
  | VNumber l => l
  | VString s => quote s
  | VArray es =>
      wrap (lit "[") (lit "]") gap cur (map (serialize gap (cur ++ gap)) es)
  | VObject ms =>
      wrap (lit "{") (lit "}") gap cur
           (map (fun m => quote (fst m)
                          ++ lit ":" ++ (match gap with [] => [] | _ => lit " " end)
                          ++ serialize gap (cur ++ gap) (snd m)) ms)
  end.

Definition stringify (v : Value) (indent : N) : Str :=
  serialize (repeat 32%N (N.to_nat (N.min indent 10))) [] v.

#[export] Instance host : Host := {|
  number_is_zero := mantissa_is_zero;
  null_read_message := read_message;
  URL_ok := url_ok;
  JSON_stringify := stringify
|}.

End Demo.


(** ** What the claims are stated with *)

(** *** Classification rules, in the specification's words *)

(** Rule 1: the name ends in [.bib] or the declared type is plain text. *)
Definition rule1 (file : File) : Prop :=
  (exists stem, file_name file = stem ++ lit ".bib")
  \/ file_type file = lit "text/plain".

(** Rule 2: the declared type is the PDF type. *)
Definition rule2 (file : File) : Prop :=
  file_type file = lit "application/pdf".

Definition begins_http (s : Str) : Prop := exists rest, s = lit "http" ++ rest.

(** [10.] followed by one or more digits. *)
Definition begins_doi (s : Str) : Prop :=
  exists ds rest,
    ds <> [] /\ Forall (fun c => Js.isDigit c = true) ds
    /\ s = lit "10." ++ ds ++ rest.

(** A file with neither a name nor a declared type. *)
Definition anonymous : File := {| file_name := []; file_type := [] |}.

(** One reading of the clock and of the random source. *)
Definition same_draw : Draw :=
  {| now := 1730505600123; random := lit "0.8401877171547095" |}.

(** *** The submission payload, in the specification's words *)

Definition CATEGORY (t : FileType) : Str :=
  match t with
  | doi => lit "DOI"
  | url => lit "URL"
  | bibtex => lit "BIBTEX"
  | pdf => lit "PDF"
  end.

(** One record's line: [[CATEGORY]: content]. *)
Definition line (f : UploadedFile) : Str :=
  lit "[" ++ CATEGORY (type f) ++ lit "]: " ++ content f.

(** The first record's line, then every further line after a blank line. *)
Definition payload (f : UploadedFile) (rest : list UploadedFile) : Str :=
  line f ++ flat_map (fun g => [10; 10]%N ++ line g) rest.

(** *** Registry histories *)

(** What can happen to the registry: a dropped or selected file has been
    read, the link form is submitted with [raw] typed in, a record's bin
    button is pressed. *)
Inductive Op : Type :=
| FileRead (file : File) (text : Str) (d : Draw)
| UrlSubmitted (raw : Str) (d : Draw)
| Removed (i : Str).

(** A later reading of the clock and of the random source. *)
Definition later_draw : Draw :=
  {| now := 1730505600124; random := lit "0.3943829268190930" |}.

(** A file is read, a link is admitted, the file's record is removed. *)
Definition read_link_remove : list Op :=
  [FileRead anonymous (lit "10.1000/182") same_draw;
   UrlSubmitted (lit " https://example.com/paper ") later_draw;
   Removed (fresh_id same_draw)].

(** Two files read on one reading of the clock and the random source. *)
Definition two_reads_one_draw : list Op :=
  [FileRead anonymous (lit "a") same_draw;
   FileRead anonymous (lit "b") same_draw].

Section Registry.

Context {host : Host}.

Definition step (st : App) (op : Op) : App :=
  match op with
  | FileRead file text d => onload file text d st
  | UrlSubmitted raw d => fst (addUrl d (setUrlInput raw st))
  | Removed i => removeFile i st
  end.

Definition run (ops : list Op) (st : App) : App := fold_left step ops st.

(** The record an operation brings in, if any. *)
Definition admitted (op : Op) : list UploadedFile :=
  match op with
  | FileRead file text d =>
      [{| id := fresh_id d; name := or_else (file_name file) (lit "Untitled");
          type := classify file text; content := text |}]
  | UrlSubmitted raw d =>
      let u := Js.trim raw in
      if negb (Js.isEmpty u) && URL_ok u
      then [{| id := fresh_id d; name := u; type := url; content := u |}]
      else []
  | Removed _ => []
  end.

(** The draw an operation uses up, if any. *)
Definition drawn (op : Op) : list Draw :=
  match op with
  | FileRead _ _ d => [d]
  | UrlSubmitted raw d =>
      if negb (Js.isEmpty (Js.trim raw)) && URL_ok (Js.trim raw) then [d] else []
  | Removed _ => []
  end.

Definition removes (i : Str) (op : Op) : bool :=
  match op with
  | Removed j => Js.eqb i j
  | _ => false
  end.

(** Whether [op] leaves record [f] in place. *)
Definition keeps (op : Op) (f : UploadedFile) : bool := negb (removes (id f) op).

(** Whether some operation of [ops] removes id [i]. *)
Definition removed_by (ops : list Op) (i : Str) : bool := existsb (removes i) ops.

(** The records present after [ops], in arrival order: each record brought
    in, unless a later operation removes its id. *)
Fixpoint present (ops : list Op) : list UploadedFile :=
  match ops with
  | [] => []
  | op :: rest =>
      filter (fun f => negb (removed_by rest (id f))) (admitted op)
      ++ present rest
  end.

End Registry.

(** *** The validator's checks *)

Inductive Check : Type :=
| CheckSuccess | CheckPayload | CheckDeserialize | CheckMetadata.

Section Checks.

Context {host : Host}.

(** The order the checks are made in. *)
Definition checks : list Check :=
  [CheckSuccess; CheckPayload; CheckDeserialize; CheckMetadata].

(** The payload as structured data: a text is parsed, anything else is
    taken as it is. *)
Definition deserialized (ms : list (Str * Value)) : option Value :=
  match field (lit "response") ms with
  | VString text => JSON_parse text
  | v => Some v
  end.

Definition passes (ms : list (Str * Value)) (c : Check) : bool :=
  match c with
  | CheckSuccess => ToBoolean (field (lit "success") ms)
  | CheckPayload => ToBoolean (field (lit "response") ms)
  | CheckDeserialize =>
      match deserialized ms with Some _ => true | None => false end
  | CheckMetadata =>
      match deserialized ms with
      | Some v => ToBoolean v && ToBoolean (get_opt v (lit "metadata"))
      | None => false
      end
  end.

(** What is reported when a check fails. *)
Definition check_error (ms : list (Str * Value)) (c : Check) : Value :=
  match c with
  | CheckSuccess => or_value (field (lit "error") ms) (VString err_generate)
  | CheckPayload => VString err_no_response
  | CheckDeserialize => VString err_parse
  | CheckMetadata => VString err_format
  end.

(** The first check, in order, that does not pass. *)
Definition first_failure (ms : list (Str * Value)) : option Check :=
  find (fun c => negb (passes ms c)) checks.

(** The page once the engine's reply has been handled. *)
Definition settled (r : Reply) (st : App) : App :=
  fst (generateReview_resume r st).

End Checks.

(** The envelopes of the specification's examples. *)
Definition envelope_failed : list (Str * Value) :=
  [(lit "success", VBool false)].

Definition envelope_null : list (Str * Value) :=
  [(lit "success", VBool true); (lit "response", VNull)].

Definition envelope_empty_text : list (Str * Value) :=
  [(lit "success", VBool true); (lit "response", VString [])].

Definition envelope_garbled : list (Str * Value) :=
  [(lit "success", VBool true); (lit "response", VString (lit "<html>"))].

Definition envelope_quota : list (Str * Value) :=
  [(lit "success", VBool false);
   (lit "error", VString (lit "quota exceeded"))].

Definition envelope_metadata : list (Str * Value) :=
  [(lit "success", VBool true);
   (lit "response", VString (lit "{" ++ quoted (lit "metadata") ++ lit ":{}}"))].

(** *** Exports and the copied indicator *)

(** The text of a blob whose parts are all strings. *)
Fixpoint blob_text (parts : list Value) : option Str :=
  match parts with
  | [] => Some []
  | VString s :: rest => option_map (app s) (blob_text rest)
  | _ :: _ => None
  end.

(** The page with [raw] typed into the link field. *)
Definition typed (raw : Str) : App := setUrlInput raw initial.

(** The page showing a result with the given members. *)
Definition showing (ms : list (Str * Value)) : App :=
  setResult (VObject ms) initial.

(** Target A copied at time 0, then target B at time 1500. *)
Definition copied_A_then_B : World :=
  at_time 1500 (copyToClipboard (lit "{}") (lit "json"))
    (at_time 0 (copyToClipboard (lit "# Title") (lit "markdown")) world0).

(** ** The rest of the page

    The handlers and render conditions of [LiteratureAnalysisApp] besides
    the ones above. *)

Definition setIsDragging (b : bool) (st : App) : App :=
  {| files := files st; isDragging := b; loading := loading st;
     result := result st; showExportDialog := showExportDialog st;
     activeTab := activeTab st; copiedIndex := copiedIndex st;
     urlInput := urlInput st; error := error st |}.

Definition setShowExportDialog (b : bool) (st : App) : App :=
  {| files := files st; isDragging := isDragging st; loading := loading st;
     result := result st; showExportDialog := b;
     activeTab := activeTab st; copiedIndex := copiedIndex st;
     urlInput := urlInput st; error := error st |}.

Definition setActiveTab (t : Str) (st : App) : App :=
  {| files := files st; isDragging := isDragging st; loading := loading st;
     result := result st; showExportDialog := showExportDialog st;
     activeTab := t; copiedIndex := copiedIndex st;
     urlInput := urlInput st; error := error st |}.

Definition handleDragEnter (st : App) : App := setIsDragging true st.

Definition handleDragLeave (st : App) : App := setIsDragging false st.

Definition handleDragOver (st : App) : App := st.

(** [handleDrop]: the flag is lowered and the dropped files go to
    [processFiles]; [loads] is as for [processFiles]. *)
Definition handleDrop (loads : list (File * Str * Draw)) (st : App) : App :=
  processFiles loads (setIsDragging false st).

(** The record [reader.onload] builds for one load. *)
Definition record_of (l : File * Str * Draw) : UploadedFile :=
  {| id := fresh_id (snd l);
     name := or_else (file_name (fst (fst l))) (lit "Untitled");
     type := classify (fst (fst l)) (snd (fst l));
     content := snd (fst l) |}.

(** The Dismiss button of the error banner. *)
Definition dismissError (st : App) : App := setError VNull st.

(** The New Analysis button: [setResult(null); setFiles([])]. *)
Definition newAnalysis (st : App) : App :=
  setFiles (fun _ => []) (setResult VNull st).

(** The drag events of the drop zone. *)
Inductive Drag : Type := DragEnter | DragLeave | DragOver.

Definition drag (st : App) (e : Drag) : App :=
  match e with
  | DragEnter => handleDragEnter st
  | DragLeave => handleDragLeave st
  | DragOver => handleDragOver st
  end.

(** What a render throws for, [None], or hands to React, [Some]. *)






(** [(result.metadata?.summary_statistics?.[k] ?? []).slice(0, 3).map(...)],
    the badges of one statistics card: the elements that become badges. *)
Definition badges (k : Str) (st : App) : option (list Value) :=
  match nullish (get_opt (get_opt (get_opt (result st) (lit "metadata"))
                                  (lit "summary_statistics")) k)
                (VArray []) with
  | VArray es => Some (firstn 3 es)
  | _ => None
  end.

Section Rendering.

Context {host : Host}.


(** [{!result ? (upload zone) : (dashboard)}] *)
Definition dashboardShown (st : App) : bool := ToBoolean (result st).

(** [disabled={files.length === 0 || loading}] on the generate button. *)
Definition generateDisabled (st : App) : bool :=
  (List.length (files st) =? 0)%nat || loading st.

(** [disabled={!urlInput.trim()}] on the Add Link button. *)
Definition addLinkDisabled (st : App) : bool :=
  negb (ToBoolean (VString (Js.trim (urlInput st)))).

(** [disabled={!result?.markdown_output}] and [disabled={!result?.json_output}]
    on the two copy buttons. *)
Definition copyMarkdownDisabled (st : App) : bool :=
  negb (ToBoolean (get_opt (result st) (lit "markdown_output"))).

Definition copyJsonDisabled (st : App) : bool :=
  negb (ToBoolean (get_opt (result st) (lit "json_output"))).

(** The JSON tab's copy button:
    [copyToClipboard(JSON.stringify(result?.json_output ?? {}, null, 2), 'json')]. *)
Definition copyJsonClick (st : App) : App * list Effect :=
  copyToClipboard
    (JSON_stringify (nullish (get_opt (result st) (lit "json_output"))
                             (VObject [])) 2)
    (lit "json") st.

(** The value a reply is accepted with, if it is accepted. *)
Definition accepted (r : Reply) : option Value :=
  match r with
  | Replied (VObject ms) =>
      match first_failure ms with
      | None => deserialized ms
      | Some _ => None
      end
  | _ => None
  end.

(** *** Sessions

    The page together with the requests awaiting their reply.  An event is
    a user action or the host calling back; the generate button reacts only
    while it is rendered and enabled, and a reply comes only for a request
    in flight. *)

Record Session : Type := { view : App; in_flight : list Request }.

Definition session0 : Session := {| view := initial; in_flight := [] |}.

Inductive Event : Type :=
| Dragged (e : Drag)
| Dropped
| FileLoaded (file : File) (text : Str) (d : Draw)
| UrlTyped (raw : Str)
| LinkSubmitted (d : Draw)
| RemoveClicked (i : Str)
| GenerateClicked
| EngineReplied (r : Reply)
| DismissClicked
| NewAnalysisClicked
| ExportDialogSet (b : bool)
| TabSelected (t : Str)
| ExportMarkdownClicked (iso : Str)
| ExportJSONClicked (iso : Str)
| CopyClicked (text target : Str)
| CopiedExpired.

Definition requests (effects : list Effect) : list Request :=
  flat_map (fun e => match e with Fetch rq => [rq] | _ => [] end) effects.

Definition on_page (f : App -> App) (s : Session) : Session :=
  {| view := f (view s); in_flight := in_flight s |}.

Definition react (s : Session) (e : Event) : Session :=
  match e with
  | Dragged d => on_page (fun st => drag st d) s
  | Dropped => on_page (handleDrop []) s
  | FileLoaded file text d => on_page (onload file text d) s
  | UrlTyped raw => on_page (setUrlInput raw) s
  | LinkSubmitted d => on_page (fun st => fst (addUrl d st)) s
  | RemoveClicked i => on_page (removeFile i) s
  | GenerateClicked =>
      if dashboardShown (view s) || generateDisabled (view s) then s
      else
        {| view := fst (generateReview_start (view s));
           in_flight := in_flight s
                        ++ requests (snd (generateReview_start (view s))) |}
  | EngineReplied r =>
      match in_flight s with
      | [] => s
      | _ :: waiting => {| view := settled r (view s); in_flight := waiting |}
      end
  | DismissClicked => on_page dismissError s
  | NewAnalysisClicked => on_page newAnalysis s
  | ExportDialogSet b => on_page (setShowExportDialog b) s
  | TabSelected t => on_page (setActiveTab t) s
  | ExportMarkdownClicked iso => on_page (fun st => fst (exportMarkdown iso st)) s
  | ExportJSONClicked iso => on_page (fun st => fst (exportJSON iso st)) s
  | CopyClicked text target =>
      on_page (fun st => fst (copyToClipboard text target st)) s
  | CopiedExpired => on_page (run_callback ClearCopied) s
  end.

Definition session (events : list Event) : Session :=
  fold_left react events session0.

(** The invariant of sessions. *)
Definition steady (s : Session) : Prop :=
  (List.length (in_flight s) <= 1)%nat
  /\ (loading (view s) = true <-> in_flight s <> [])
  /\ (result (view s) = VNull
      \/ (ToBoolean (result (view s)) = true
          /\ ToBoolean (get_opt (result (view s)) (lit "metadata")) = true))
  /\ (in_flight s <> [] -> result (view s) = VNull).

End Rendering.

(** The request built from a registry. *)
Definition request_for (fs : list UploadedFile) : Request :=
  {| message := prompt ++ formattedInput fs;
     agent_id := lit "6901b293cb70cd01d3072e42" |}.

(** A registry of one link, and an engine with one answer. *)
Definition one_link : App :=
  setFiles (fun _ => [{| id := fresh_id same_draw;
                         name := lit "https://example.com/paper";
                         type := url;
                         content := lit "https://example.com/paper" |}])
           initial.

Definition engine_metadata (rq : Request) : Reply :=
  Replied (VObject envelope_metadata).

(** Copies made one after the other, each at its time. *)
Definition copy_at (w : World) (e : N * (Str * Str)) : World :=
  at_time (fst e) (copyToClipboard (fst (snd e)) (snd (snd e))) w.

Definition copies (es : list (N * (Str * Str))) : World :=
  fold_left copy_at es world0.

(** A result with four themes and a table of two entries. *)
Definition sample_result : list (Str * Value) :=
  [(lit "metadata",
    VObject [(lit "summary_statistics",
              VObject [(lit "research_themes",
                        VArray [VString (lit "a"); VString (lit "b");
                                VString (lit "c"); VString (lit "d")])])]);
   (lit "json_output",
    VObject [(lit "comparative_analysis_table",
              VArray [VObject [(lit "paper", VString (lit "P"));
                               (lit "year", VNumber (lit "2020"))];
                      VObject []])])].

(** What holds of the timer queue after any copies: every pending expiry is
    due later than now and at most 2000 ms from now, and a shown indicator
    has an expiry pending. *)
Definition ticking (w : World) : Prop :=
  (forall timer, In timer (timers w) ->
     (clock w < fst timer)%N /\ (fst timer <= clock w + 2000)%N)
  /\ (copiedIndex (page w) <> None -> timers w <> []).

(** No white space at either end. *)
Definition trimmed (s : Str) : Prop :=
  Js.trimStart s = s /\ Js.trimStart (rev s) = rev s.

(** * Properties *)

(** ** JSON.parse on examples *)

Example parse_empty_text : JSON_parse [] = None.
Proof. reflexivity. Qed.

Example parse_metadata_object :
  JSON_parse (lit "{" ++ quoted (lit "metadata") ++ lit ":{}}")
  = Some (VObject [(lit "metadata", VObject [])]).
Proof. reflexivity. Qed.

Example parse_nested :
  JSON_parse (lit " [1, -2.5e+3, true, null, {" ++ quoted (lit "a")
              ++ lit ": [false]}] ")
  = Some (VArray [VNumber (lit "1"); VNumber (lit "-2.5e+3"); VBool true;
                  VNull; VObject [(lit "a", VArray [VBool false])]]).
Proof. reflexivity. Qed.

Example parse_escapes :
  JSON_parse (quoted (lit "a\u0041\n\/")) = Some (VString [97; 65; 10; 47]%N).
Proof. reflexivity. Qed.

Example parse_repeated_key :
  JSON_parse (lit "{" ++ quoted (lit "a") ++ lit ":1," ++ quoted (lit "b")
              ++ lit ":2," ++ quoted (lit "a") ++ lit ":3}")
  = Some (VObject [(lit "a", VNumber (lit "3")); (lit "b", VNumber (lit "2"))]).
Proof. reflexivity. Qed.

Example parse_rejects :
  map JSON_parse [lit "[1,]"; lit "01"; lit "{,}"; lit "nul"; lit "1.";
                  lit "[1 2]"; lit "<html>"; lit "{} {}"; [34; 10; 34]%N]
  = repeat None 9.
Proof. reflexivity. Qed.

(** ** Strings *)

Lemma str_eqb_eq (a b : Str) : Js.eqb a b = true <-> a = b.
Proof.
  revert b. induction a as [|x a IH]; intros [|y b]; simpl; split;
    try congruence; try reflexivity.
  - intros H. apply andb_true_iff in H as [Hx Hab].
    apply N.eqb_eq in Hx. apply IH in Hab. congruence.
  - intros H. injection H as -> ->. rewrite N.eqb_refl. simpl.
    apply IH. reflexivity.
Qed.

Lemma str_eqb_refl (a : Str) : Js.eqb a a = true.
Proof. apply str_eqb_eq. reflexivity. Qed.

Lemma str_eqb_neq (a b : Str) : Js.eqb a b = false <-> a <> b.
Proof.
  split.
  - intros H E. apply str_eqb_eq in E. congruence.
  - intros H. destruct (Js.eqb a b) eqn:E; [|reflexivity].
    apply str_eqb_eq in E. contradiction.
Qed.

Lemma startsWith_spec (s p : Str) :
  Js.startsWith s p = true <-> exists rest, s = p ++ rest.
Proof.
  revert s. induction p as [|c p IH]; intros s; simpl.
  - split; [intros _; exists s; reflexivity | reflexivity].
  - destruct s as [|d s].
    + split; [discriminate | intros [rest H]; discriminate].
    + rewrite andb_true_iff, N.eqb_eq, IH. split.
      * intros [-> [rest ->]]. exists rest. reflexivity.
      * intros [rest H]. injection H as -> ->. split; [reflexivity|].
        exists rest. reflexivity.
Qed.

Lemma endsWith_spec (s p : Str) :
  Js.endsWith s p = true <-> exists stem, s = stem ++ p.
Proof.
  unfold Js.endsWith. rewrite startsWith_spec. split.
  - intros [rest H]. exists (rev rest).
    rewrite <- (rev_involutive s), H, rev_app_distr, rev_involutive.
    reflexivity.
  - intros [stem ->]. exists (rev stem). apply rev_app_distr.
Qed.

Lemma match_doi_spec (s : Str) : match_doi s = true <-> begins_doi s.
Proof.
  unfold match_doi, begins_doi. rewrite andb_true_iff, startsWith_spec. split.
  - intros [[rest ->] H]. simpl in H. destruct rest as [|d rest]; [discriminate|].
    exists [d], rest. split; [discriminate|]. split; [|reflexivity].
    constructor; [exact H | constructor].
  - intros (ds & rest & Hne & Hd & ->). destruct ds as [|d ds]; [contradiction|].
    split; [exists ((d :: ds) ++ rest); reflexivity|].
    simpl. inversion Hd; assumption.
Qed.

(** ** The classifier *)

Lemma rule1_test (file : File) :
  rule1 file <->
  Js.endsWith (file_name file) (lit ".bib")
  || Js.eqb (file_type file) (lit "text/plain") = true.
Proof.
  unfold rule1. rewrite orb_true_iff, endsWith_spec, str_eqb_eq. reflexivity.
Qed.

Lemma rule2_test (file : File) :
  rule2 file <-> Js.eqb (file_type file) (lit "application/pdf") = true.
Proof. unfold rule2. rewrite str_eqb_eq. reflexivity. Qed.

Lemma classify_past_file_rules (file : File) (content : Str) :
  ~ rule1 file -> ~ rule2 file ->
  classify file content =
    if Js.startsWith content (lit "http") then url
    else if match_doi content then doi else pdf.
Proof.
  intros H1 H2. unfold classify.
  rewrite rule1_test in H1. rewrite rule2_test in H2.
  apply not_true_is_false in H1. apply not_true_is_false in H2.
  rewrite H1, H2. reflexivity.
Qed.

(** C3, as stated, fails: the content is tested as read, not trimmed.  A
    nameless, typeless file whose text is a space followed by a web address
    is classified [pdf], though its trimmed text begins with [http]; the
    same holds for a DOI after a space. *)
Lemma classify_leading_space_counterexample :
  ~ rule1 anonymous /\ ~ rule2 anonymous
  /\ begins_http (Js.trim (lit " http://example.org"))
  /\ classify anonymous (lit " http://example.org") = pdf
  /\ begins_doi (Js.trim (lit " 10.1000/182"))
  /\ classify anonymous (lit " 10.1000/182") = pdf.
Proof.
  repeat split.
  - rewrite rule1_test. discriminate.
  - rewrite rule2_test. discriminate.
  - apply startsWith_spec. reflexivity.
  - apply match_doi_spec. reflexivity.
Qed.

(** C3, amended: when neither rule 1 nor rule 2 applies, the classifier
    returns [url] when the content as read (not trimmed) begins with [http],
    otherwise [doi] when it begins with [10.] followed by one or more
    digits, otherwise [pdf]; empty content with no name and no declared type
    yields [pdf]. *)
Theorem classify_content_rules (file : File) (content : Str) :
  ~ rule1 file -> ~ rule2 file ->
  (begins_http content -> classify file content = url)
  /\ (~ begins_http content -> begins_doi content ->
      classify file content = doi)
  /\ (~ begins_http content -> ~ begins_doi content ->
      classify file content = pdf)
  /\ classify anonymous [] = pdf.
Proof.
  intros H1 H2. rewrite (classify_past_file_rules file content H1 H2).
  unfold begins_http. rewrite <- match_doi_spec, <- startsWith_spec.
  repeat split.
  - intros ->. reflexivity.
  - intros Hh Hd. apply not_true_is_false in Hh. rewrite Hh, Hd. reflexivity.
  - intros Hh Hd. apply not_true_is_false in Hh, Hd. rewrite Hh, Hd.
    reflexivity.
Qed.

Lemma classify_content_rules_witness :
  ~ rule1 anonymous /\ ~ rule2 anonymous
  /\ classify anonymous (lit "http://example.org") = url
  /\ classify anonymous (lit "10.1000/182") = doi
  /\ classify anonymous (lit "%PDF-1.4") = pdf.
Proof.
  assert (R1 : ~ rule1 anonymous) by (rewrite rule1_test; discriminate).
  assert (R2 : ~ rule2 anonymous) by (rewrite rule2_test; discriminate).
  split; [exact R1|]. split; [exact R2|]. split; [|split].
  - destruct (classify_content_rules anonymous (lit "http://example.org") R1 R2)
      as (Hurl & _).
    apply Hurl. apply startsWith_spec. reflexivity.
  - destruct (classify_content_rules anonymous (lit "10.1000/182") R1 R2)
      as (_ & Hdoi & _).
    apply Hdoi.
    + unfold begins_http. rewrite <- startsWith_spec. discriminate.
    + apply match_doi_spec. reflexivity.
  - destruct (classify_content_rules anonymous (lit "%PDF-1.4") R1 R2)
      as (_ & _ & Hpdf & _).
    apply Hpdf.
    + unfold begins_http. rewrite <- startsWith_spec. discriminate.
    + rewrite <- match_doi_spec. discriminate.
Defined.

(** ** The submission payload *)

Lemma toUpperCase_category (t : FileType) :
  Js.toUpperCase (FileType_text t) = CATEGORY t.
Proof. destruct t; reflexivity. Qed.

Lemma format_file_line (f : UploadedFile) : format_file f = line f.
Proof. unfold format_file, line. rewrite toUpperCase_category. reflexivity. Qed.

Lemma join_cons (sep p : Str) (rest : list Str) :
  Js.join sep (p :: rest) = p ++ flat_map (fun q => sep ++ q) rest.
Proof.
  revert p. induction rest as [|q rest IH]; intros p.
  - simpl. rewrite app_nil_r. reflexivity.
  - change (Js.join sep (p :: q :: rest)) with (p ++ sep ++ Js.join sep (q :: rest)).
    rewrite IH. simpl. rewrite <- app_assoc. reflexivity.
Qed.

(** C4: for a non-empty registry [f :: rest] the payload is the records'
    lines [[CATEGORY]: content] in registry order, each further line after
    a blank line; it is what the request carries after the fixed prompt; and
    for the records bibtex X, doi 10.123 it is the text of the example. *)
Theorem submission_payload (f : UploadedFile) (rest : list UploadedFile) :
  formattedInput (f :: rest) = payload f rest
  /\ (forall st,
        snd (generateReview_start (setFiles (fun _ => f :: rest) st))
        = [Fetch {| message := prompt ++ payload f rest;
                    agent_id := lit "6901b293cb70cd01d3072e42" |}])
  /\ (forall i1 n1 i2 n2,
        formattedInput
          [{| id := i1; name := n1; type := bibtex; content := lit "X" |};
           {| id := i2; name := n2; type := doi; content := lit "10.123" |}]
        = lit "[BIBTEX]: X" ++ [10; 10]%N ++ lit "[DOI]: 10.123").
Proof.
  assert (E : formattedInput (f :: rest) = payload f rest).
  { unfold formattedInput, payload. cbn [map]. rewrite join_cons.
    rewrite format_file_line. f_equal.
    induction rest as [|g rest IH]; [reflexivity|].
    cbn [map flat_map]. rewrite format_file_line, IH, <- !app_assoc.
    reflexivity. }
  split; [exact E|]. split.
  - intros st. unfold generateReview_start. simpl. rewrite <- E. reflexivity.
  - reflexivity.
Qed.

(** ** The registry *)

Section RegistryFacts.

Context {host : Host}.

Lemma filter_filter {A : Type} (p q : A -> bool) (l : list A) :
  filter p (filter q l) = filter (fun x => q x && p x) l.
Proof.
  induction l as [|x l IH]; [reflexivity|]. simpl.
  destruct (q x); simpl; [destruct (p x)|]; rewrite ?IH; reflexivity.
Qed.

Lemma filter_all {A : Type} (p : A -> bool) (l : list A) :
  (forall x, In x l -> p x = true) -> filter p l = l.
Proof.
  induction l as [|x l IH]; intros H; [reflexivity|]. simpl.
  rewrite (H x (or_introl eq_refl)). f_equal. apply IH.
  intros y Hy. apply H. right. exact Hy.
Qed.

Lemma files_step (st : App) (op : Op) :
  files (step st op) = filter (keeps op) (files st) ++ admitted op.
Proof.
  destruct op as [file text d|raw d|i]; simpl.
  - rewrite filter_all by reflexivity. reflexivity.
  - rewrite filter_all by reflexivity. unfold addUrl. simpl.
    destruct (Js.isEmpty (Js.trim raw)); simpl.
    + rewrite app_nil_r. reflexivity.
    + destruct (URL_ok (Js.trim raw)); simpl;
        [reflexivity | rewrite app_nil_r; reflexivity].
  - rewrite app_nil_r. reflexivity.
Qed.

Lemma processFiles_run (loads : list (File * Str * Draw)) (st : App) :
  processFiles loads st
  = run (map (fun l => FileRead (fst (fst l)) (snd (fst l)) (snd l)) loads) st.
Proof.
  revert st. induction loads as [|l loads IH]; intros st; [reflexivity|].
  simpl. apply IH.
Qed.

Lemma files_run (ops : list Op) (st : App) :
  files (run ops st)
  = filter (fun f => negb (removed_by ops (id f))) (files st) ++ present ops.
Proof.
  revert st. induction ops as [|op ops IH]; intros st.
  - simpl. rewrite filter_all by reflexivity. rewrite app_nil_r. reflexivity.
  - change (run (op :: ops) st) with (run ops (step st op)).
    rewrite IH, files_step, filter_app, filter_filter, <- app_assoc.
    f_equal. apply filter_ext. intros f. unfold keeps. simpl.
    rewrite negb_orb. reflexivity.
Qed.

Lemma NoDup_app_disjoint {A : Type} (l1 l2 : list A) (a : A) :
  NoDup (l1 ++ l2) -> In a l1 -> ~ In a l2.
Proof.
  induction l1 as [|x l1 IH]; simpl; intros N I I2; [contradiction|].
  inversion N as [|? ? Hx N']; subst. destruct I as [E|I].
  - subst x. apply Hx. apply in_or_app. right. exact I2.
  - exact (IH N' I I2).
Qed.

Lemma NoDup_map_filter {A B : Type} (g : A -> B) (p : A -> bool) (l : list A) :
  NoDup (map g l) -> NoDup (map g (filter p l)).
Proof.
  induction l as [|x l IH]; simpl; intros N; [constructor|].
  inversion N as [|? ? Hx N']; subst. destruct (p x); [|exact (IH N')].
  simpl. constructor; [|exact (IH N')].
  intros I. apply Hx. apply in_map_iff in I as (y & E & I).
  apply in_map_iff. exists y. split; [exact E|].
  apply filter_In in I. apply I.
Qed.

Lemma present_incl (ops : list Op) : incl (present ops) (flat_map admitted ops).
Proof.
  induction ops as [|op ops IH]; simpl; [apply incl_refl|].
  apply incl_app_app; [apply incl_filter | exact IH].
Qed.

Lemma NoDup_present (ops : list Op) :
  NoDup (map id (flat_map admitted ops)) -> NoDup (map id (present ops)).
Proof.
  induction ops as [|op ops IH]; simpl; [constructor|].
  rewrite !map_app. intros N. apply NoDup_app.
  - apply NoDup_map_filter. exact (NoDup_app_remove_r _ _ N).
  - apply IH. exact (NoDup_app_remove_l _ _ N).
  - intros i I1 I2. apply (NoDup_app_disjoint _ _ i N).
    + apply in_map_iff in I1 as (f & E & I). apply in_map_iff.
      exists f. split; [exact E|]. apply filter_In in I. apply I.
    + apply in_map_iff in I2 as (f & E & I). apply in_map_iff.
      exists f. split; [exact E|]. apply present_incl. exact I.
Qed.

Lemma ids_admitted (ops : list Op) :
  map id (flat_map admitted ops) = map fresh_id (flat_map drawn ops).
Proof.
  induction ops as [|op ops IH]; [reflexivity|]. simpl.
  rewrite !map_app, IH. f_equal.
  destruct op as [file text d|raw d|i]; simpl; try reflexivity.
  destruct (negb (Js.isEmpty (Js.trim raw)) && URL_ok (Js.trim raw));
    reflexivity.
Qed.

(** Ids are equal only when made from the same millisecond and the same
    random text. *)

Lemma uint_units_digits (d : Decimal.uint) :
  Forall (fun c => Js.isDigit c = true) (uint_units d).
Proof. induction d; simpl; constructor; auto. Qed.

Lemma uint_units_inj (d d' : Decimal.uint) :
  uint_units d = uint_units d' -> d = d'.
Proof.
  revert d'. induction d; intros d'; destruct d'; simpl; intros E;
    try discriminate; try reflexivity; injection E as E; f_equal; auto.
Qed.

Lemma split_at_dash (x y r r' : Str) :
  Forall (fun c => Js.isDigit c = true) x ->
  Forall (fun c => Js.isDigit c = true) y ->
  x ++ 45%N :: r = y ++ 45%N :: r' -> x = y /\ r = r'.
Proof.
  revert y. induction x as [|c x IH]; intros y Hx Hy E.
  - destruct y as [|c y]; simpl in E.
    + injection E as ->. split; reflexivity.
    + injection E as <- _. inversion Hy; discriminate.
  - destruct y as [|c' y]; simpl in E.
    + injection E as -> _. inversion Hx; discriminate.
    + injection E as -> E. inversion Hx; inversion Hy; subst.
      destruct (IH y) as [-> ->]; auto.
Qed.

Lemma fresh_id_inj (d d' : Draw) : fresh_id d = fresh_id d' -> d = d'.
Proof.
  destruct d as [t r], d' as [t' r']. unfold fresh_id. simpl. intros E.
  apply split_at_dash in E as [Et ->]; try apply uint_units_digits.
  apply uint_units_inj, Unsigned.to_uint_inj in Et. subst. reflexivity.
Qed.

Lemma NoDup_fresh_ids (ds : list Draw) : NoDup ds -> NoDup (map fresh_id ds).
Proof.
  induction 1 as [|d ds Hd N IH]; simpl; constructor; [|exact IH].
  intros I. apply in_map_iff in I as (d' & E & I).
  apply fresh_id_inj in E. subst. contradiction.
Qed.

(** Removal *)

Lemma removeFile_absent (i : Str) (st : App) :
  (forall f, In f (files st) -> id f <> i) -> removeFile i st = st.
Proof.
  intros H. destruct st. unfold removeFile, setFiles. simpl in *.
  rewrite filter_all; [reflexivity|].
  intros f I. apply negb_true_iff, str_eqb_neq. exact (H f I).
Qed.

Lemma removeFile_unique (i : Str) (st : App) (f : UploadedFile) :
  NoDup (map id (files st)) -> In f (files st) -> id f = i ->
  exists before after,
    files st = before ++ f :: after
    /\ files (removeFile i st) = before ++ after.
Proof.
  intros N I E. apply in_split in I as (before & after & S).
  exists before, after. split; [exact S|]. simpl. rewrite S in N |- *.
  rewrite map_app in N. simpl in N. apply NoDup_remove_2 in N.
  rewrite filter_app. simpl. rewrite E, str_eqb_refl. simpl.
  assert (K : forall l, (forall g, In g l -> In (id g) (map id before ++ map id after)) ->
                     filter (fun g => negb (Js.eqb (id g) i)) l = l).
  { intros l Hl. apply filter_all. intros g Ig.
    apply negb_true_iff, str_eqb_neq. intros Eg. apply N.
    rewrite E, <- Eg. exact (Hl g Ig). }
  rewrite !K; [reflexivity| |]; intros g Ig; apply in_or_app;
    [right | left]; apply in_map; exact Ig.
Qed.

End RegistryFacts.

(** C5, as stated, fails: nothing checks an id against the ones in use.
    Two files read while the clock and the random source give the same
    values get the same id; both stay in the registry, and removing that id
    takes away both records. *)
Lemma duplicate_id_counterexample :
  ~ NoDup (map id (files (run (host := Demo.host) two_reads_one_draw initial)))
  /\ List.length (files (run (host := Demo.host) two_reads_one_draw initial)) = 2
  /\ files (run (host := Demo.host)
                (two_reads_one_draw ++ [Removed (fresh_id same_draw)]) initial)
     = [].
Proof.
  split; [|split; reflexivity].
  intros N. inversion N as [|? ? Hx _]. apply Hx. left. reflexivity.
Qed.

(** C5, amended: after any sequence of additions (a file read, a link
    admitted) and removals the registry holds exactly the records brought in
    and not removed since, in arrival order; it holds no two records with the
    same id provided no pair of clock value and random text was drawn twice,
    which is what makes two ids differ; [removeFile] drops every record
    carrying the id, which is one record when ids are distinct, and changes
    nothing when no record carries it. *)
Theorem registry_history {host : Host} (ops : list Op) :
  files (run ops initial) = present ops
  /\ (NoDup (flat_map drawn ops) -> NoDup (map id (files (run ops initial))))
  /\ (forall d d', fresh_id d = fresh_id d' <-> d = d')
  /\ (forall i st f,
        In f (files (removeFile i st)) <-> In f (files st) /\ id f <> i)
  /\ (forall i st f,
        NoDup (map id (files st)) -> In f (files st) -> id f = i ->
        exists before after,
          files st = before ++ f :: after
          /\ files (removeFile i st) = before ++ after)
  /\ (forall i st,
        (forall f, In f (files st) -> id f <> i) -> removeFile i st = st).
Proof.
  assert (E : files (run ops initial) = present ops)
    by (rewrite files_run; reflexivity).
  split; [exact E|]. split; [|split; [|split; [|split]]].
  - intros N. rewrite E. apply NoDup_present. rewrite ids_admitted.
    apply NoDup_fresh_ids. exact N.
  - intros d d'. split; [apply fresh_id_inj | intros ->; reflexivity].
  - intros i st f. simpl. rewrite filter_In, negb_true_iff, str_eqb_neq.
    reflexivity.
  - intros i st f. apply removeFile_unique.
  - intros i st. apply removeFile_absent.
Qed.

(** ** The validator *)

Section ValidatorFacts.

Context {host : Host}.

Lemma get_truthy (v : Value) (k : Str) :
  ToBoolean v = true -> get v k = Normal (get_opt v k).
Proof. destruct v; simpl; try discriminate; reflexivity. Qed.

Lemma get_object (ms : list (Str * Value)) (k : Str) :
  get (VObject ms) k = Normal (field k ms).
Proof. reflexivity. Qed.

(** The validator is its checks, made in order, the first failure deciding. *)
Lemma resume_by_checks (ms : list (Str * Value)) (st : App) :
  generateReview_resume (Replied (VObject ms)) st
  = match first_failure ms, deserialized ms with
    | Some CheckDeserialize, _ =>
        (setLoading false (setError (VString err_parse) st),
         [ConsoleError (lit "Parse error:")])
    | Some c, _ => (setLoading false (setError (check_error ms c) st), [])
    | None, Some v => (setLoading false (setResult v st), [])
    | None, None => (setLoading false st, [])
    end.
Proof.
  unfold generateReview_resume, validate, first_failure, checks.
  rewrite !get_object. cbn [bind find passes].
  destruct (ToBoolean (field (lit "success") ms)) eqn:Hs; cbn [negb];
    [|reflexivity].
  destruct (ToBoolean (field (lit "response") ms)) eqn:Hr; cbn [negb];
    [|reflexivity].
  unfold deserialized.
  assert (D : match field (lit "response") ms with
              | VString text => JSON_parse text
              | _ => Some (field (lit "response") ms)
              end
              = match field (lit "response") ms with
                | VString text => JSON_parse text
                | v => Some v
                end)
    by (destruct (field (lit "response") ms); reflexivity).
  rewrite D. clear D.
  destruct (match field (lit "response") ms with
            | VString text => JSON_parse text
            | v => Some v
            end) as [v|]; cbn [negb]; [|reflexivity].
  destruct (ToBoolean v) eqn:Hv; cbn [negb andb]; [|reflexivity].
  rewrite (get_truthy v _ Hv). cbn [bind].
  destruct (ToBoolean (get_opt v (lit "metadata"))); reflexivity.
Qed.

Lemma messages_distinct :
  NoDup [err_generate; err_no_response; err_parse; err_format].
Proof.
  repeat constructor; simpl; intuition discriminate.
Qed.

Lemma settled_by_checks (ms : list (Str * Value)) (st : App) :
  settled (Replied (VObject ms)) st
  = setLoading false
      match first_failure ms, deserialized ms with
      | Some c, _ => setError (check_error ms c) st
      | None, Some v => setResult v st
      | None, None => st
      end.
Proof.
  unfold settled. rewrite resume_by_checks.
  destruct (first_failure ms) as [[]|]; [reflexivity ..|].
  destruct (deserialized ms); reflexivity.
Qed.

(** A reply that is not an object never touches the result. *)
Lemma settled_not_object (r : Reply) (st : App) :
  (forall ms, r <> Replied (VObject ms)) -> result (settled r st) = result st.
Proof.
  intros H. destruct r as [[]|e]; try reflexivity.
  exfalso. exact (H _ eq_refl).
Qed.

(** C1, amended: validation is sequential and short-circuiting.  The first
    check to fail reports its own error and the current result, null or
    not, is left as it is.  The checks fail, in order, on: a falsy success
    flag; a falsy payload (missing, null, and also the empty text, zero or
    false); a non-empty text that does not deserialize; a deserialized value
    that is falsy or whose metadata is missing or falsy.  The four fixed
    messages are pairwise distinct, and a reply that is no object at all
    leaves the result alone too. *)
Theorem validation_failure_reported (ms : list (Str * Value)) (st : App) :
  (forall c, first_failure ms = Some c ->
     error (settled (Replied (VObject ms)) st) = check_error ms c
     /\ result (settled (Replied (VObject ms)) st) = result st)
  /\ (ToBoolean (field (lit "success") ms) = false ->
      first_failure ms = Some CheckSuccess)
  /\ (ToBoolean (field (lit "success") ms) = true ->
      ToBoolean (field (lit "response") ms) = false ->
      first_failure ms = Some CheckPayload)
  /\ (ToBoolean (field (lit "success") ms) = true ->
      forall text, field (lit "response") ms = VString text -> text <> [] ->
      JSON_parse text = None ->
      first_failure ms = Some CheckDeserialize)
  /\ (ToBoolean (field (lit "success") ms) = true ->
      ToBoolean (field (lit "response") ms) = true ->
      forall v, deserialized ms = Some v ->
      ToBoolean v = false \/ ToBoolean (get_opt v (lit "metadata")) = false ->
      first_failure ms = Some CheckMetadata)
  /\ NoDup [err_generate; err_no_response; err_parse; err_format]
  /\ (forall r, (forall ms', r <> Replied (VObject ms')) ->
      result (settled r st) = result st).
Proof.
  split; [|split; [|split; [|split; [|split; [|split]]]]].
  - intros c Hc. rewrite settled_by_checks, Hc. split; reflexivity.
  - intros Hs. unfold first_failure. simpl. rewrite Hs. reflexivity.
  - intros Hs Hr. unfold first_failure. simpl. rewrite Hs, Hr. reflexivity.
  - intros Hs text Hr Hne Hp. unfold first_failure. simpl.
    unfold deserialized. rewrite Hs, Hr, Hp. simpl.
    destruct text; [contradiction | reflexivity].
  - intros Hs Hr v Hv Hm. unfold first_failure. simpl.
    rewrite Hs, Hr, Hv. simpl.
    destruct Hm as [-> | ->]; [|rewrite andb_false_r]; reflexivity.
  - exact messages_distinct.
  - intros r. apply settled_not_object.
Qed.

(** C2: the success flag is checked first, its failure reporting the
    engine's error text, or the fallback when there is none; then the
    payload's presence; then the deserialization of a textual payload; then
    the metadata.  [{success:false}] and [{success:true, response:null}] are
    rejected with different errors, and the envelope whose payload is the
    text of an object with an empty metadata object is accepted: the result
    becomes the deserialized value, whatever it was before. *)
Theorem validation_order (ms : list (Str * Value)) (st : App) :
  settled (Replied (VObject ms)) st
  = setLoading false
      (if negb (ToBoolean (field (lit "success") ms)) then
         setError (or_value (field (lit "error") ms) (VString err_generate)) st
       else if negb (ToBoolean (field (lit "response") ms)) then
         setError (VString err_no_response) st
       else
         match deserialized ms with
         | None => setError (VString err_parse) st
         | Some v =>
             if ToBoolean v && ToBoolean (get_opt v (lit "metadata"))
             then setResult v st
             else setError (VString err_format) st
         end)
  /\ (forall text, field (lit "error") ms = VString text -> text <> [] ->
      or_value (field (lit "error") ms) (VString err_generate) = VString text)
  /\ (field (lit "error") ms = VUndefined ->
      or_value (field (lit "error") ms) (VString err_generate)
      = VString err_generate)
  /\ settled (Replied (VObject envelope_failed)) st
     = setLoading false (setError (VString err_generate) st)
  /\ settled (Replied (VObject envelope_null)) st
     = setLoading false (setError (VString err_no_response) st)
  /\ err_generate <> err_no_response
  /\ settled (Replied (VObject envelope_metadata)) st
     = setLoading false (setResult (VObject [(lit "metadata", VObject [])]) st)
  /\ get_opt (result (settled (Replied (VObject envelope_metadata)) st))
             (lit "metadata")
     = VObject [].
Proof.
  split; [|split; [|split; [|repeat split; discriminate]]].
  - rewrite settled_by_checks. unfold first_failure. simpl.
    destruct (ToBoolean (field (lit "success") ms)); [|reflexivity].
    destruct (ToBoolean (field (lit "response") ms)); [|reflexivity].
    simpl. destruct (deserialized ms) as [v|]; [|reflexivity]. simpl.
    destruct (ToBoolean v && ToBoolean (get_opt v (lit "metadata")));
      reflexivity.
  - intros text -> Hne. destruct text; [contradiction | reflexivity].
  - intros ->. reflexivity.
Qed.

(** C10: when the success flag holds and the payload is the empty text,
    what is reported is the missing-payload error, not the parse error the
    empty text would otherwise give; the same goes for every falsy payload;
    the result is left as it is. *)
Theorem falsy_payload_is_no_response (ms : list (Str * Value)) (st : App) :
  ToBoolean (field (lit "success") ms) = true ->
  (field (lit "response") ms = VString [] ->
   error (settled (Replied (VObject ms)) st) = VString err_no_response
   /\ result (settled (Replied (VObject ms)) st) = result st)
  /\ (ToBoolean (field (lit "response") ms) = false ->
      error (settled (Replied (VObject ms)) st) = VString err_no_response
      /\ result (settled (Replied (VObject ms)) st) = result st)
  /\ JSON_parse [] = None
  /\ err_no_response <> err_parse.
Proof.
  intros Hs.
  assert (F : ToBoolean (field (lit "response") ms) = false ->
              error (settled (Replied (VObject ms)) st) = VString err_no_response
              /\ result (settled (Replied (VObject ms)) st) = result st).
  { intros Hr. rewrite settled_by_checks. unfold first_failure. simpl.
    rewrite Hs, Hr. split; reflexivity. }
  split; [|split; [exact F | split; [reflexivity | discriminate]]].
  intros Hr. apply F. rewrite Hr. reflexivity.
Qed.

End ValidatorFacts.

(** C1, as stated, fails: an envelope whose payload is the empty text has a
    payload that is present, not null, textual, and that does not
    deserialize, yet the error reported is the missing-payload one, not the
    parse error. *)
Lemma empty_text_payload_counterexample :
  field (lit "success") envelope_empty_text = VBool true
  /\ field (lit "response") envelope_empty_text = VString []
  /\ JSON_parse [] = None
  /\ error (settled (host := Demo.host) (Replied (VObject envelope_empty_text))
                    initial)
     = VString err_no_response
  /\ err_no_response <> err_parse.
Proof. repeat split. discriminate. Qed.

Lemma validation_failure_reported_witness :
  first_failure (host := Demo.host) envelope_garbled = Some CheckDeserialize
  /\ error (settled (host := Demo.host) (Replied (VObject envelope_garbled))
                    initial) = VString err_parse
  /\ result (settled (host := Demo.host) (Replied (VObject envelope_garbled))
                     initial) = VNull.
Proof.
  destruct (validation_failure_reported (host := Demo.host)
              envelope_garbled initial) as (Hreported & _ & _ & Hparse & _).
  assert (F : first_failure (host := Demo.host) envelope_garbled
              = Some CheckDeserialize).
  { apply Hparse with (text := lit "<html>");
      [reflexivity | reflexivity | discriminate | reflexivity]. }
  split; [exact F|]. exact (Hreported _ F).
Defined.

Lemma validation_order_witness :
  or_value (host := Demo.host) (field (lit "error") envelope_quota)
           (VString err_generate)
  = VString (lit "quota exceeded")
  /\ error (settled (host := Demo.host) (Replied (VObject envelope_quota))
                    initial)
     = VString (lit "quota exceeded").
Proof.
  destruct (validation_order (host := Demo.host) envelope_quota initial)
    as (Hsettled & Htext & _).
  split.
  - apply (Htext (lit "quota exceeded")); [reflexivity | discriminate].
  - rewrite Hsettled. reflexivity.
Defined.

Lemma falsy_payload_is_no_response_witness :
  ToBoolean (host := Demo.host) (field (lit "success") envelope_empty_text)
  = true
  /\ error (settled (host := Demo.host)
                    (Replied (VObject envelope_empty_text)) initial)
     = VString err_no_response
  /\ result (settled (host := Demo.host)
                     (Replied (VObject envelope_empty_text)) initial)
     = VNull.
Proof.
  split; [reflexivity|].
  destruct (falsy_payload_is_no_response (host := Demo.host)
              envelope_empty_text initial eq_refl) as (Hempty & _).
  exact (Hempty eq_refl).
Defined.

Lemma registry_history_witness :
  NoDup (flat_map (drawn (host := Demo.host)) read_link_remove)
  /\ NoDup (map id (files (run (host := Demo.host) read_link_remove initial)))
  /\ map type (files (run (host := Demo.host) read_link_remove initial))
     = [url].
Proof.
  assert (D : NoDup (flat_map (drawn (host := Demo.host)) read_link_remove)).
  { simpl. repeat constructor; simpl; intuition discriminate. }
  destruct (registry_history (host := Demo.host) read_link_remove)
    as (Hpresent & Hnodup & _).
  split; [exact D|]. split; [exact (Hnodup D)|].
  rewrite Hpresent. reflexivity.
Defined.

(** ** Submitting and adding links *)

(** C9, as stated, fails: with an empty registry [generateReview] returns
    at once; no error is set and nothing else is emitted, so no condition
    is surfaced. *)
Lemma empty_submission_counterexample :
  files initial = []
  /\ generateReview (host := Demo.host) (fun _ => Rejected ThrownOther) initial
     = (initial, [])
  /\ error (fst (generateReview (host := Demo.host)
                   (fun _ => Rejected ThrownOther) initial)) = VNull.
Proof. repeat split. Qed.

(** C9, amended: submitting with an empty registry does nothing at all: no
    request is built or sent, no error is reported and the page is as it
    was; a non-empty registry is submitted whole, in one request. *)
Theorem empty_registry_not_submitted {host : Host}
    (engine : Request -> Reply) (st : App) :
  (files st = [] ->
   generateReview_start st = (st, [])
   /\ generateReview engine st = (st, []))
  /\ (forall f rest, files st = f :: rest ->
      generateReview_start st
      = (setError VNull (setLoading true st),
         [Fetch {| message := prompt ++ formattedInput (f :: rest);
                   agent_id := lit "6901b293cb70cd01d3072e42" |}])).
Proof.
  split.
  - intros E. unfold generateReview, generateReview_start. rewrite E.
    split; reflexivity.
  - intros f rest E. unfold generateReview_start. rewrite E. reflexivity.
Qed.

Lemma empty_registry_not_submitted_witness :
  files initial = []
  /\ generateReview (host := Demo.host) (fun _ => Rejected ThrownOther) initial
     = (initial, []).
Proof.
  split; [reflexivity|].
  apply (empty_registry_not_submitted (host := Demo.host)
           (fun _ => Rejected ThrownOther) initial).
  reflexivity.
Defined.

(** C8, as stated, fails: when the input is blank (nothing is left after
    trimming, so no URL parses from it) the handler returns before the
    buffer is cleared; the typed spaces stay in the field. *)
Lemma blank_input_counterexample :
  URL_ok (Host := Demo.host) (Js.trim (lit " ")) = false
  /\ files (fst (addUrl (host := Demo.host) same_draw (typed (lit " ")))) = []
  /\ urlInput (fst (addUrl (host := Demo.host) same_draw (typed (lit " "))))
     = lit " "
  /\ urlInput (fst (addUrl (host := Demo.host) same_draw (typed (lit " "))))
     <> []
  /\ URL_ok (Host := Demo.host) (Js.trim [160%N]) = false
  /\ urlInput (fst (addUrl (host := Demo.host) same_draw (typed [160%N])))
     = [160%N].
Proof. repeat split. discriminate. Qed.

(** C8, amended: an input that is blank after trimming changes nothing, the
    buffer included; an input that is not blank and whose trimmed form is
    not a URL leaves the registry unchanged, reports nothing to the user and
    clears the buffer; an input whose trimmed form is a URL appends one
    record of category [url], named and filled with the trimmed text, and
    clears the buffer. *)
Theorem addUrl_cases {host : Host} (d : Draw) (st : App) :
  (Js.trim (urlInput st) = [] -> addUrl d st = (st, []))
  /\ (Js.trim (urlInput st) <> [] -> URL_ok (Js.trim (urlInput st)) = false ->
      files (fst (addUrl d st)) = files st
      /\ urlInput (fst (addUrl d st)) = []
      /\ error (fst (addUrl d st)) = error st)
  /\ (Js.trim (urlInput st) <> [] -> URL_ok (Js.trim (urlInput st)) = true ->
      files (fst (addUrl d st))
      = files st ++ [{| id := fresh_id d; name := Js.trim (urlInput st);
                        type := url; content := Js.trim (urlInput st) |}]
      /\ urlInput (fst (addUrl d st)) = []).
Proof.
  unfold addUrl. split; [|split].
  - intros ->. reflexivity.
  - intros Hne Hbad. destruct (Js.trim (urlInput st)); [contradiction|].
    simpl. rewrite Hbad. repeat split.
  - intros Hne Hok. destruct (Js.trim (urlInput st)); [contradiction|].
    simpl. rewrite Hok. split; reflexivity.
Qed.

Lemma addUrl_cases_witness :
  Js.trim (lit "not-a-url") <> []
  /\ URL_ok (Host := Demo.host) (Js.trim (lit "not-a-url")) = false
  /\ files (fst (addUrl (host := Demo.host) same_draw (typed (lit "not-a-url"))))
     = []
  /\ urlInput (fst (addUrl (host := Demo.host) same_draw
                      (typed (lit "not-a-url")))) = []
  /\ Js.trim (lit " https://example.com/paper ") <> []
  /\ URL_ok (Host := Demo.host) (Js.trim (lit " https://example.com/paper "))
     = true
  /\ map type (files (fst (addUrl (host := Demo.host) same_draw
                             (typed (lit " https://example.com/paper ")))))
     = [url]
  /\ urlInput (fst (addUrl (host := Demo.host) same_draw
                      (typed (lit " https://example.com/paper ")))) = [].
Proof.
  destruct (addUrl_cases (host := Demo.host) same_draw
              (typed (lit "not-a-url"))) as (_ & Hbad & _).
  destruct (addUrl_cases (host := Demo.host) same_draw
              (typed (lit " https://example.com/paper "))) as (_ & _ & Hok).
  assert (N1 : Js.trim (lit "not-a-url") <> []) by discriminate.
  assert (N2 : Js.trim (lit " https://example.com/paper ") <> [])
    by discriminate.
  destruct (Hbad N1 eq_refl) as (Hf & Hu & _).
  destruct (Hok N2 eq_refl) as (Hf' & Hu').
  split; [exact N1|]. split; [reflexivity|]. split; [exact Hf|].
  split; [exact Hu|]. split; [exact N2|]. split; [reflexivity|].
  split; [|exact Hu']. rewrite Hf'. reflexivity.
Defined.

(** ** Exports *)

Section ExportFacts.

Context {host : Host}.

Lemma beforeFirst_app (sep : N) (date rest : Str) :
  ~ In sep date -> Js.beforeFirst sep (date ++ sep :: rest) = date.
Proof.
  induction date as [|c date IH]; simpl; intros H.
  - rewrite N.eqb_refl. reflexivity.
  - destruct (N.eqb_spec c sep) as [E|_]; [exfalso; apply H; left; exact E|].
    f_equal. apply IH. intros I. apply H. right. exact I.
Qed.

Lemma nullish_truthy (v d : Value) : ToBoolean v = true -> nullish v d = v.
Proof. destruct v; simpl; try discriminate; reflexivity. Qed.

(** C6: whenever the prose export happens, its blob is made of the
    [markdown_output] field itself, which is also what the prose view shows,
    so for a text field the blob's text is that text; whenever the
    structured export happens, its blob's text is the 2-space serialization
    of [json_output], which is also what the structured view shows; when the
    field is absent the export does nothing; and the file is named
    [literature-review-], the date part of the ISO time stamp, then [.md] or
    [.json]. *)
Theorem exports_match_views (iso : Str) (st : App) :
  (forall file fname,
     In (Download file fname) (snd (exportMarkdown iso st)) ->
     blobParts file = [get_opt (result st) (lit "markdown_output")]
     /\ proseView st = get_opt (result st) (lit "markdown_output")
     /\ (forall text,
           get_opt (result st) (lit "markdown_output") = VString text ->
           blob_text (blobParts file) = Some text)
     /\ fname = export_name iso (lit "md"))
  /\ (forall file fname,
        In (Download file fname) (snd (exportJSON iso st)) ->
        blob_text (blobParts file)
        = Some (JSON_stringify (get_opt (result st) (lit "json_output")) 2)
        /\ structuredView st
           = JSON_stringify (get_opt (result st) (lit "json_output")) 2
        /\ fname = export_name iso (lit "json"))
  /\ (ToBoolean (get_opt (result st) (lit "markdown_output")) = true ->
      exists file fname, snd (exportMarkdown iso st) = [Download file fname])
  /\ (ToBoolean (get_opt (result st) (lit "json_output")) = true ->
      exists file fname, snd (exportJSON iso st) = [Download file fname])
  /\ (get_opt (result st) (lit "markdown_output") = VUndefined
      \/ ToBoolean (get_opt (result st) (lit "markdown_output")) = false ->
      exportMarkdown iso st = (st, []))
  /\ (get_opt (result st) (lit "json_output") = VUndefined
      \/ ToBoolean (get_opt (result st) (lit "json_output")) = false ->
      exportJSON iso st = (st, []))
  /\ (result st = VNull ->
      exportMarkdown iso st = (st, []) /\ exportJSON iso st = (st, []))
  /\ (forall date time ext,
        ~ In 84%N date ->
        export_name (date ++ 84%N :: time) ext
        = lit "literature-review-" ++ date ++ lit "." ++ ext)
  /\ (forall ms,
        result st = VObject ms ->
        field (lit "markdown_output") ms = VString (lit "# Title") ->
        snd (exportMarkdown iso st)
        = [Download {| blobParts := [VString (lit "# Title")];
                       mime := lit "text/markdown" |}
                    (export_name iso (lit "md"))]).
Proof.
  unfold exportMarkdown, exportJSON, proseView, structuredView.
  split; [|split; [|split; [|split; [|split; [|split; [|split; [|split]]]]]]].
  - intros file fname.
    destruct (ToBoolean (get_opt (result st) (lit "markdown_output"))) eqn:T;
      simpl; [|contradiction].
    intros [E|[]]. injection E as <- <-. simpl.
    split; [reflexivity|]. split; [apply nullish_truthy; exact T|].
    split; [|reflexivity].
    intros text ->. simpl. rewrite app_nil_r. reflexivity.
  - intros file fname.
    destruct (ToBoolean (get_opt (result st) (lit "json_output"))) eqn:T;
      simpl; [|contradiction].
    intros [E|[]]. injection E as <- <-. simpl. rewrite app_nil_r.
    split; [reflexivity|]. split; [|reflexivity].
    rewrite nullish_truthy by exact T. reflexivity.
  - intros ->. simpl. eexists _, _. reflexivity.
  - intros ->. simpl. eexists _, _. reflexivity.
  - intros [-> | ->]; reflexivity.
  - intros [-> | ->]; reflexivity.
  - intros ->. split; reflexivity.
  - intros date time ext H. unfold export_name. rewrite beforeFirst_app by exact H.
    reflexivity.
  - intros ms -> F. simpl. rewrite F. reflexivity.
Qed.

End ExportFacts.

Lemma exports_match_views_witness :
  In (Download {| blobParts := [VString (lit "# Title")];
                  mime := lit "text/markdown" |}
               (lit "literature-review-2026-11-02.md"))
     (snd (exportMarkdown (host := Demo.host) (lit "2026-11-02T09:30:00.000Z")
             (showing [(lit "metadata", VObject []);
                       (lit "markdown_output", VString (lit "# Title"))])))
  /\ proseView (showing [(lit "metadata", VObject []);
                         (lit "markdown_output", VString (lit "# Title"))])
     = VString (lit "# Title").
Proof.
  split; [left; reflexivity|].
  apply (exports_match_views (host := Demo.host)
           (lit "2026-11-02T09:30:00.000Z")
           (showing [(lit "metadata", VObject []);
                     (lit "markdown_output", VString (lit "# Title"))]))
    with (file := {| blobParts := [VString (lit "# Title")];
                     mime := lit "text/markdown" |})
         (fname := lit "literature-review-2026-11-02.md").
  left. reflexivity.
Defined.

(** ** The copied indicator *)

Lemma dispatch_copy (text target : Str) (w : World) :
  dispatch (copyToClipboard text target) w
  = {| page := setCopiedIndex (Some target) (page w);
       clock := clock w;
       timers := schedule (clock w + 2000) ClearCopied (timers w) |}.
Proof. reflexivity. Qed.

Lemma In_schedule (due : N) (cb : Callback) (ts : list (N * Callback))
    (timer : N * Callback) :
  In timer (schedule due cb ts) <-> timer = (due, cb) \/ In timer ts.
Proof.
  induction ts as [|[d c] ts IH]; simpl.
  - intuition congruence.
  - destruct (d <=? due)%N; simpl; rewrite ?IH; intuition congruence.
Qed.

Lemma fire_cleared (t : N) (ts : list (N * Callback)) (st : App) :
  copiedIndex st = None -> copiedIndex (fold_left (fire t) ts st) = None.
Proof.
  revert st. induction ts as [|[d []] ts IH]; intros st H; [exact H|].
  simpl. apply IH. unfold fire. simpl. destruct (d <=? t)%N; [reflexivity|exact H].
Qed.

Lemma fire_due (t : N) (ts : list (N * Callback)) (st : App) :
  (exists timer, In timer ts /\ (fst timer <= t)%N) ->
  copiedIndex (fold_left (fire t) ts st) = None.
Proof.
  revert st. induction ts as [|[d []] ts IH]; intros st (timer & I & Hd).
  - contradiction.
  - simpl. destruct I as [<-|I].
    + apply fire_cleared. unfold fire. simpl in *.
      apply N.leb_le in Hd. rewrite Hd. reflexivity.
    + apply IH. exists timer. split; assumption.
Qed.

Lemma fire_none_due (t : N) (ts : list (N * Callback)) (st : App) :
  (forall timer, In timer ts -> (t < fst timer)%N) ->
  fold_left (fire t) ts st = st.
Proof.
  revert st. induction ts as [|[d c] ts IH]; intros st H; [reflexivity|].
  simpl. unfold fire at 2. simpl.
  assert (Hd : (d <=? t)%N = false)
    by (apply N.leb_gt; exact (H (d, c) (or_introl eq_refl))).
  rewrite Hd. apply IH. intros timer I. apply H. right. exact I.
Qed.

Lemma copyLabel_copied (target : Str) (st : App) :
  copyLabel target st = lit "Copied" <-> copiedIndex st = Some target.
Proof.
  unfold copyLabel. destruct (copiedIndex st) as [c|]; [|split; discriminate].
  destruct (Js.eqb c target) eqn:E.
  - apply str_eqb_eq in E. subst. split; reflexivity.
  - apply str_eqb_neq in E. split; [discriminate | congruence].
Qed.

(** C7, as stated, fails: a copy cancels no pending expiry.  With A copied
    at time 0 and B at time 1500, both expiries are pending after the second
    copy, and the one scheduled for A clears the indicator at time 2000,
    500 ms after B was copied and 1500 ms before B's own expiry. *)
Lemma early_revert_counterexample :
  copiedIndex (page copied_A_then_B) = Some (lit "json")
  /\ clock copied_A_then_B = 1500%N
  /\ timers copied_A_then_B = [(2000%N, ClearCopied); (3500%N, ClearCopied)]
  /\ copiedIndex (page (elapse 2000 copied_A_then_B)) = None
  /\ copyLabel (lit "json") (page (elapse 2000 copied_A_then_B)) = lit "Copy"
  /\ ~ (forall t, (1500 <= t)%N -> (t < 1500 + 2000)%N ->
         copiedIndex (page (elapse t copied_A_then_B)) = Some (lit "json")).
Proof.
  repeat split. intros H.
  specialize (H 2000%N ltac:(discriminate) ltac:(reflexivity)).
  discriminate H.
Qed.

(** C7, amended: the copied state is a single slot.  A copy on T marks T,
    and only T, at once, whatever was marked before, so no two targets are
    ever marked together and after copying A then B only B is marked.  A
    copy adds its own expiry, due 2000 ms later, and cancels none: the mark
    is gone by then at the latest, it lasts until then when no older expiry
    is pending, and it is gone as soon as an older pending expiry is due. *)
Theorem copied_single_slot (text target : Str) (w : World) :
  copiedIndex (page (dispatch (copyToClipboard text target) w)) = Some target
  /\ (forall other,
        copyLabel other (page (dispatch (copyToClipboard text target) w))
        = lit "Copied" <-> other = target)
  /\ (forall st a b,
        copyLabel a st = lit "Copied" -> copyLabel b st = lit "Copied" -> a = b)
  /\ (forall timer,
        In timer (timers (dispatch (copyToClipboard text target) w))
        <-> timer = ((clock w + 2000)%N, ClearCopied) \/ In timer (timers w))
  /\ (forall t, (clock w + 2000 <= t)%N ->
        copiedIndex (page (elapse t (dispatch (copyToClipboard text target) w)))
        = None)
  /\ (forall t, (t < clock w + 2000)%N ->
        (forall timer, In timer (timers w) -> (t < fst timer)%N) ->
        copiedIndex (page (elapse t (dispatch (copyToClipboard text target) w)))
        = Some target)
  /\ (forall t timer, In timer (timers w) -> (fst timer <= t)%N ->
        copiedIndex (page (elapse t (dispatch (copyToClipboard text target) w)))
        = None).
Proof.
  rewrite dispatch_copy. simpl.
  split; [reflexivity|]. split; [|split; [|split; [|split; [|split]]]].
  - intros other. rewrite copyLabel_copied. simpl.
    split; [intros E; injection E as ->; reflexivity | intros ->; reflexivity].
  - intros st a b Ha Hb. apply copyLabel_copied in Ha, Hb. congruence.
  - intros timer. apply In_schedule.
  - intros t Ht. apply fire_due. exists ((clock w + 2000)%N, ClearCopied).
    split; [apply In_schedule; left; reflexivity | exact Ht].
  - intros t Ht Hold. rewrite fire_none_due; [reflexivity|].
    intros timer I. apply In_schedule in I as [->|I]; [exact Ht | exact (Hold _ I)].
  - intros t timer I Hd. apply fire_due. exists timer.
    split; [apply In_schedule; right; exact I | exact Hd].
Qed.

Lemma copied_single_slot_witness :
  (0 + 2000 <= 2000)%N
  /\ copiedIndex
       (page (elapse 2000
                (dispatch (copyToClipboard (lit "# Title") (lit "markdown"))
                          world0)))
     = None
  /\ (1999 < 0 + 2000)%N
  /\ copiedIndex
       (page (elapse 1999
                (dispatch (copyToClipboard (lit "# Title") (lit "markdown"))
                          world0)))
     = Some (lit "markdown").
Proof.
  destruct (copied_single_slot (lit "# Title") (lit "markdown") world0)
    as (_ & _ & _ & _ & Hgone & Hlasts & _).
  assert (L1 : (0 + 2000 <= 2000)%N) by reflexivity.
  assert (L2 : (1999 < 0 + 2000)%N) by reflexivity.
  split; [exact L1|]. split; [exact (Hgone 2000%N L1)|].
  split; [exact L2|]. apply (Hlasts 1999%N L2).
  intros timer [].
Defined.

(** * Further properties *)

(** ** What a reply does to the page *)

Section ReplyFacts.

Context {host : Host}.

Lemma check_error_not_null (ms : list (Str * Value)) (c : Check) :
  check_error ms c <> VNull.
Proof.
  destruct c; simpl; try discriminate.
  unfold or_value. destruct (ToBoolean (field (lit "error") ms)) eqn:T;
    [|discriminate].
  intros E. rewrite E in T. discriminate T.
Qed.

Lemma no_failure_deserialized (ms : list (Str * Value)) :
  first_failure ms = None -> deserialized ms <> None.
Proof.
  unfold first_failure. simpl.
  destruct (ToBoolean (field (lit "success") ms)); [|discriminate].
  destruct (ToBoolean (field (lit "response") ms)); [|discriminate].
  simpl. destruct (deserialized ms); [discriminate | discriminate].
Qed.

(** A reply is either accepted, and then the result is replaced and nothing
    is logged, or reported, and then an error that is not null is set. *)
Lemma resume_cases (r : Reply) (st : App) :
  match accepted r with
  | Some v => generateReview_resume r st = (setLoading false (setResult v st), [])
  | None =>
      exists e effects,
        generateReview_resume r st = (setLoading false (setError e st), effects)
        /\ e <> VNull
  end.
Proof.
  destruct r as [data|e].
  - destruct data; try (eexists _, _; split; [reflexivity | discriminate]).
    unfold accepted. rewrite resume_by_checks.
    destruct (first_failure members) as [c|] eqn:F.
    + exists (check_error members c).
      destruct c; eexists; (split; [reflexivity | apply check_error_not_null]).
    + destruct (deserialized members) as [v|] eqn:D; [reflexivity|].
      exfalso. exact (no_failure_deserialized members F D).
  - simpl. eexists _, _. split; [reflexivity | discriminate].
Qed.

Lemma settled_loading (r : Reply) (st : App) : loading (settled r st) = false.
Proof.
  unfold settled. pose proof (resume_cases r st) as H.
  destruct (accepted r); [rewrite H; reflexivity|].
  destruct H as (e & effects & -> & _). reflexivity.
Qed.

Lemma settled_outcome (r : Reply) (st : App) :
  match accepted r with
  | Some v => result (settled r st) = v /\ error (settled r st) = error st
  | None => result (settled r st) = result st /\ error (settled r st) <> VNull
  end.
Proof.
  unfold settled. pose proof (resume_cases r st) as H.
  destruct (accepted r); [rewrite H; split; reflexivity|].
  destruct H as (e & effects & -> & Hne). split; [reflexivity | exact Hne].
Qed.

Lemma accepted_truthy (r : Reply) (v : Value) :
  accepted r = Some v ->
  ToBoolean v = true /\ ToBoolean (get_opt v (lit "metadata")) = true.
Proof.
  destruct r as [[]|]; try discriminate. unfold accepted.
  destruct (first_failure members) eqn:F; [discriminate|]. intros A.
  unfold first_failure in F. simpl in F. rewrite A in F.
  destruct (ToBoolean (field (lit "success") members)); [|discriminate].
  destruct (ToBoolean (field (lit "response") members)); [|discriminate].
  simpl in F. destruct (ToBoolean v); [|discriminate]. simpl in F.
  destruct (ToBoolean (get_opt v (lit "metadata"))); [|discriminate].
  split; reflexivity.
Qed.

(** X1: handling a reply always lowers [loading], whatever the reply and
    even when something was thrown, and touches nothing but [loading],
    [result] and [error]; of the last two it changes at most one. *)
Theorem reply_lowers_loading_and_frames (r : Reply) (st : App) :
  loading (settled r st) = false
  /\ files (settled r st) = files st
  /\ urlInput (settled r st) = urlInput st
  /\ copiedIndex (settled r st) = copiedIndex st
  /\ isDragging (settled r st) = isDragging st
  /\ showExportDialog (settled r st) = showExportDialog st
  /\ activeTab (settled r st) = activeTab st
  /\ (result (settled r st) = result st \/ error (settled r st) = error st).
Proof.
  unfold settled. pose proof (resume_cases r st) as H.
  destruct (accepted r) as [v|].
  - rewrite H. repeat split. right. reflexivity.
  - destruct H as (e & effects & -> & _). repeat split. left. reflexivity.
Qed.

(** X2: a reply is accepted or reported, never both and never neither: when
    it is accepted the result becomes the accepted value and the error is
    left as it was; otherwise the result is left as it was and the error
    becomes a value that is not null. *)
Theorem reply_accepted_or_reported (r : Reply) (st : App) :
  match accepted r with
  | Some v =>
      result (settled r st) = v /\ error (settled r st) = error st
      /\ ToBoolean v = true /\ ToBoolean (get_opt v (lit "metadata")) = true
  | None =>
      result (settled r st) = result st /\ error (settled r st) <> VNull
  end.
Proof.
  pose proof (settled_outcome r st) as H.
  destruct (accepted r) as [v|] eqn:A; [|exact H].
  destruct H as (Hr & He). destruct (accepted_truthy r v A) as (Tv & Tm).
  repeat split; assumption.
Qed.


End ReplyFacts.

(** ** Whole runs and sessions *)

Section SessionFacts.

Context {host : Host}.

Lemma resume_no_request (r : Reply) (st : App) :
  requests (snd (generateReview_resume r st)) = [].
Proof.
  destruct r as [data|e]; [|reflexivity].
  destruct data; try reflexivity.
  rewrite resume_by_checks.
  destruct (first_failure members) as [[]|]; try reflexivity.
  destruct (deserialized members); reflexivity.
Qed.

Lemma start_nonempty (st : App) (f : UploadedFile) (rest : list UploadedFile) :
  files st = f :: rest ->
  generateReview_start st
  = (setError VNull (setLoading true st), [Fetch (request_for (f :: rest))]).
Proof. intros E. unfold generateReview_start, request_for. rewrite E. reflexivity. Qed.

(** X4: a run on a non-empty registry sends exactly one request, the one
    built from the registry as it is at the click; when the engine has
    answered, [loading] is down again, the error is null exactly when the
    reply was accepted, and an error shown before the run has no influence
    on the page after it. *)
Theorem generateReview_run (engine : Request -> Reply) (st : App)
    (f : UploadedFile) (rest : list UploadedFile) :
  files st = f :: rest ->
  fst (generateReview engine st)
  = settled (engine (request_for (f :: rest)))
            (setError VNull (setLoading true st))
  /\ requests (snd (generateReview engine st)) = [request_for (f :: rest)]
  /\ loading (fst (generateReview engine st)) = false
  /\ (error (fst (generateReview engine st)) = VNull
      <-> accepted (engine (request_for (f :: rest))) <> None)
  /\ (forall e, fst (generateReview engine (setError e st))
                = fst (generateReview engine st)).
Proof.
  intros E.
  assert (R : forall st0, files st0 = f :: rest ->
              generateReview engine st0
              = (settled (engine (request_for (f :: rest)))
                         (setError VNull (setLoading true st0)),
                 Fetch (request_for (f :: rest))
                 :: snd (generateReview_resume
                           (engine (request_for (f :: rest)))
                           (setError VNull (setLoading true st0))))).
  { intros st0 E0. unfold generateReview. rewrite (start_nonempty st0 f rest E0).
    unfold settled.
    destruct (generateReview_resume (engine (request_for (f :: rest)))
                (setError VNull (setLoading true st0))).
    reflexivity. }
  rewrite (R st E). cbn [fst snd].
  split; [reflexivity|]. split.
  { change (requests (?x :: ?l)) with ([request_for (f :: rest)] ++ requests l).
    cbn [requests flat_map]. rewrite resume_no_request. reflexivity. }
  split; [apply settled_loading|]. split.
  - pose proof (settled_outcome
                  (engine (request_for (f :: rest)))
                  (setError VNull (setLoading true st))) as H.
    destruct (accepted (engine (request_for (f :: rest)))) as [v|].
    + destruct H as (_ & ->). split; [discriminate | reflexivity].
    + destruct H as (_ & Hne). split; [contradiction | intros C; contradiction].
  - intros e. rewrite (R (setError e st) E). reflexivity.
Qed.

Lemma steady_on_page (f : App -> App) (s : Session) :
  (forall st, loading (f st) = loading st) ->
  (forall st, result (f st) = result st \/ result (f st) = VNull) ->
  steady s -> steady (on_page f s).
Proof.
  intros Hl Hr (I1 & I2 & I3 & I4). unfold steady, on_page. simpl.
  rewrite Hl. split; [exact I1|]. split; [exact I2|].
  destruct (Hr (view s)) as [-> | ->].
  - split; [exact I3 | exact I4].
  - split; [left; reflexivity | intros _; reflexivity].
Qed.

Lemma steady_react (s : Session) (e : Event) : steady s -> steady (react s e).
Proof.
  intros I. destruct e; simpl;
    try (apply steady_on_page;
         [intros st; reflexivity | intros st; left; reflexivity | exact I]).
  - (* a drag event *)
    apply steady_on_page; [| |exact I]; intros st; destruct e;
      try reflexivity; left; reflexivity.
  - (* the link form *)
    apply steady_on_page; [| |exact I]; intros st; unfold addUrl;
      destruct (Js.isEmpty (Js.trim (urlInput st)));
      try destruct (URL_ok (Js.trim (urlInput st)));
      try reflexivity; left; reflexivity.
  - (* the generate button *)
    destruct (dashboardShown (view s) || generateDisabled (view s)) eqn:G;
      [exact I|].
    apply orb_false_iff in G as (Gd & Gg). unfold generateDisabled in Gg.
    apply orb_false_iff in Gg as (Gf & Gl).
    destruct I as (I1 & I2 & I3 & I4).
    assert (Q : in_flight s = []).
    { destruct (in_flight s) eqn:Q; [reflexivity|].
      assert (L : loading (view s) = true) by (apply I2; discriminate).
      congruence. }
    unfold generateReview_start. rewrite Gf, Q. simpl.
    assert (N : result (view s) = VNull).
    { destruct I3 as [N | (T & _)]; [exact N|].
      unfold dashboardShown in Gd. congruence. }
    repeat split; try discriminate; auto.
  - (* a reply *)
    destruct (in_flight s) as [|rq waiting] eqn:Q; [exact I|].
    destruct I as (I1 & I2 & I3 & I4). rewrite Q in I1, I4.
    assert (W : waiting = [])
      by (destruct waiting; [reflexivity | simpl in I1; lia]).
    subst waiting. unfold steady. simpl.
    split; [lia|]. split.
    { split; [|intros C; contradiction].
      intros L. pose proof (settled_loading r (view s)) as F.
      congruence. }
    split; [|intros C; contradiction].
    pose proof (settled_outcome r (view s)) as H.
    destruct (accepted r) as [v|] eqn:A.
    + destruct H as (-> & _). right. exact (accepted_truthy r v A).
    + destruct H as (-> & _). left. apply I4. discriminate.
  - (* new analysis *)
    apply steady_on_page; [| |exact I]; intros st; [reflexivity | right; reflexivity].
  - (* the prose export *)
    apply steady_on_page; [| |exact I]; intros st; unfold exportMarkdown;
      destruct (ToBoolean (get_opt (result st) (lit "markdown_output")));
      try reflexivity; left; reflexivity.
  - (* the structured export *)
    apply steady_on_page; [| |exact I]; intros st; unfold exportJSON;
      destruct (ToBoolean (get_opt (result st) (lit "json_output")));
      try reflexivity; left; reflexivity.
Qed.

(** X5: in every session, that is after any sequence of user actions and
    host callbacks starting from the initial page, at most one request is in
    flight; [loading] is up exactly while one is; the result is null or a
    truthy value with a truthy metadata field; and while a request is in
    flight the result is null, so a displayed result is never replaced
    behind the user's back. *)
Theorem session_steady (events : list Event) :
  (List.length (in_flight (session events)) <= 1)%nat
  /\ (loading (view (session events)) = true
      <-> in_flight (session events) <> [])
  /\ (result (view (session events)) = VNull
      \/ (ToBoolean (result (view (session events))) = true
          /\ ToBoolean (get_opt (result (view (session events)))
                                (lit "metadata")) = true))
  /\ (in_flight (session events) <> []
      -> result (view (session events)) = VNull).
Proof.
  unfold session.
  assert (G : forall s, steady s -> steady (fold_left react events s)).
  { induction events as [|e events IH]; intros s I; [exact I|].
    simpl. apply IH. apply steady_react. exact I. }
  apply (G session0). unfold steady, session0. simpl.
  split; [lia|]. split; [split; [discriminate | intros C; contradiction]|].
  split; [left; reflexivity | intros _; reflexivity].
Qed.

End SessionFacts.

Lemma generateReview_run_witness :
  files one_link <> []
  /\ requests (snd (generateReview (host := Demo.host) engine_metadata one_link))
     = [request_for (files one_link)]
  /\ error (fst (generateReview (host := Demo.host) engine_metadata one_link))
     = VNull
  /\ result (fst (generateReview (host := Demo.host) engine_metadata one_link))
     = VObject [(lit "metadata", VObject [])].
Proof.
  destruct (generateReview_run (host := Demo.host) engine_metadata one_link
              {| id := fresh_id same_draw;
                 name := lit "https://example.com/paper";
                 type := url;
                 content := lit "https://example.com/paper" |}
              [] eq_refl) as (Hrun & Hreq & _ & Herr & _).
  split; [discriminate|]. split; [exact Hreq|].
  split; [apply Herr; discriminate|]. rewrite Hrun. reflexivity.
Defined.

(** ** Ingestion *)

(** X6: the classifier is a first-match rule list.  A file is [bibtex]
    exactly when rule 1 applies, whatever its declared type or content;
    [url] exactly when neither file rule applies and the content begins with
    [http]; [doi] exactly when, besides, the content does not begin with
    [http] and begins with [10.] and a digit; [pdf] in every other case, so
    in particular for every declared PDF that is not named [.bib]. *)
Theorem classify_first_match (file : File) (content : Str) :
  (classify file content = bibtex <-> rule1 file)
  /\ (classify file content = url
      <-> ~ rule1 file /\ ~ rule2 file /\ begins_http content)
  /\ (classify file content = doi
      <-> ~ rule1 file /\ ~ rule2 file /\ ~ begins_http content
          /\ begins_doi content)
  /\ (classify file content = pdf
      <-> ~ rule1 file
          /\ (rule2 file \/ (~ begins_http content /\ ~ begins_doi content))).
Proof.
  unfold begins_http. rewrite rule1_test, rule2_test.
  rewrite <- match_doi_spec, <- startsWith_spec. unfold classify.
  destruct (Js.endsWith (file_name file) (lit ".bib")
            || Js.eqb (file_type file) (lit "text/plain"));
    destruct (Js.eqb (file_type file) (lit "application/pdf"));
    destruct (Js.startsWith content (lit "http"));
    destruct (match_doi content);
    intuition congruence.
Qed.

Lemma or_else_not_empty (x d : Str) : d <> [] -> or_else x d <> [].
Proof. intros H. destruct x; [exact H | discriminate]. Qed.

Lemma processFiles_files (loads : list (File * Str * Draw)) (st : App) :
  processFiles loads st
  = setFiles (fun prev => prev ++ map record_of loads) st.
Proof.
  revert st. induction loads as [|l loads IH]; intros st.
  - destruct st. unfold setFiles. simpl. rewrite app_nil_r. reflexivity.
  - change (processFiles (l :: loads) st)
      with (processFiles loads (onload (fst (fst l)) (snd (fst l)) (snd l) st)).
    rewrite IH. unfold onload, setFiles. simpl. rewrite <- app_assoc.
    reflexivity.
Qed.

Lemma drag_frame (es : list Drag) (st : App) :
  fold_left drag es st = setIsDragging (isDragging (fold_left drag es st)) st.
Proof.
  revert st. induction es as [|e es IH]; intros st.
  - destruct st. reflexivity.
  - simpl. rewrite IH at 1. destruct e; reflexivity.
Qed.

(** X7: the files of one [processFiles] call are appended to the registry
    one record each, in the order their reads complete, after the records
    already there, and no other cell of the page changes; each record keeps
    the file's text as read and has a name that is not empty, an unnamed
    file being listed as Untitled.  A drop does the same and lowers the drag
    flag, and any sequence of drag events changes the drag flag at most. *)
Theorem processFiles_appends (loads : list (File * Str * Draw)) (st : App) :
  processFiles loads st = setFiles (fun prev => prev ++ map record_of loads) st
  /\ handleDrop loads st
     = setIsDragging false
         (setFiles (fun prev => prev ++ map record_of loads) st)
  /\ List.length (files (processFiles loads st))
     = (List.length (files st) + List.length loads)%nat
  /\ (forall f, In f (map record_of loads) -> name f <> [])
  /\ map content (map record_of loads) = map (fun l => snd (fst l)) loads
  /\ (forall es, fold_left drag es st
                 = setIsDragging (isDragging (fold_left drag es st)) st).
Proof.
  split; [apply processFiles_files|]. split.
  { unfold handleDrop. rewrite processFiles_files. reflexivity. }
  split.
  { rewrite processFiles_files. simpl. rewrite length_app, length_map.
    reflexivity. }
  split.
  { intros f I. apply in_map_iff in I as (l & <- & _). simpl.
    apply or_else_not_empty. discriminate. }
  split; [rewrite map_map; reflexivity | intros es; apply drag_frame].
Qed.

(** ** Trimming and the link form *)

Lemma trimStart_idem (s : Str) : Js.trimStart (Js.trimStart s) = Js.trimStart s.
Proof.
  induction s as [|c s IH]; [reflexivity|]. simpl.
  destruct (Js.isWhiteSpace c) eqn:W; [exact IH|]. simpl. rewrite W.
  reflexivity.
Qed.

Lemma trimStart_suffix (s : Str) : exists pre, s = pre ++ Js.trimStart s.
Proof.
  induction s as [|c s (pre & IH)]; [exists []; reflexivity|]. simpl.
  destruct (Js.isWhiteSpace c).
  - exists (c :: pre). simpl. f_equal. exact IH.
  - exists []. reflexivity.
Qed.

Lemma trimStart_fixed_head (c : N) (s : Str) :
  Js.trimStart (c :: s) = c :: s -> Js.isWhiteSpace c = false.
Proof.
  simpl. destruct (Js.isWhiteSpace c); [|reflexivity]. intros E.
  destruct (trimStart_suffix s) as (pre & P).
  apply (f_equal (@List.length N)) in E, P. rewrite length_app in P.
  simpl in E. lia.
Qed.

Lemma trimStart_rev_fixed (t : Str) :
  Js.trimStart t = t ->
  Js.trimStart (rev (Js.trimStart (rev t))) = rev (Js.trimStart (rev t)).
Proof.
  intros F. destruct (trimStart_suffix (rev t)) as (pre & P).
  apply (f_equal (@rev N)) in P. rewrite rev_involutive, rev_app_distr in P.
  destruct (rev (Js.trimStart (rev t))) as [|c q]; [reflexivity|].
  rewrite P in F. simpl in F. apply trimStart_fixed_head in F.
  simpl. rewrite F. reflexivity.
Qed.

Lemma trim_trimmed (s : Str) : trimmed (Js.trim s).
Proof.
  unfold trimmed, Js.trim, Js.trimEnd. split.
  - apply trimStart_rev_fixed. apply trimStart_idem.
  - rewrite rev_involutive. apply trimStart_idem.
Qed.

Lemma trimmed_trim (s : Str) : trimmed s -> Js.trim s = s.
Proof.
  intros (A & B). unfold Js.trim, Js.trimEnd. rewrite A, B.
  apply rev_involutive.
Qed.

Section LinkFacts.

Context {host : Host}.

(** X8: whatever is typed, a record the link form adds holds the trimmed
    input as both name and content: it is of category [url], it is not
    empty, the host's URL constructor accepts it, and it has no white space
    at either end, so trimming it again changes nothing.  Trimming twice is
    trimming once, and when the Add Link button is disabled the handler does
    nothing. *)
Theorem addUrl_record_trimmed (d : Draw) (st : App) (f : UploadedFile) :
  In f (files (fst (addUrl d st))) ->
  (In f (files st)
   \/ (f = {| id := fresh_id d; name := Js.trim (urlInput st); type := url;
              content := Js.trim (urlInput st) |}
       /\ content f <> []
       /\ URL_ok (content f) = true
       /\ trimmed (content f)
       /\ Js.trim (content f) = content f))
  /\ (forall s, Js.trim (Js.trim s) = Js.trim s)
  /\ (addLinkDisabled st = true -> addUrl d st = (st, [])).
Proof.
  intros I. split; [|split].
  - unfold addUrl in I.
    destruct (Js.isEmpty (Js.trim (urlInput st))) eqn:E; [left; exact I|].
    destruct (URL_ok (Js.trim (urlInput st))) eqn:U; [|left; exact I].
    simpl in I. apply in_app_or in I as [I|[<-|[]]]; [left; exact I|].
    right. simpl. split; [reflexivity|]. split.
    { intros C. rewrite C in E. discriminate E. }
    split; [exact U|]. split; [apply trim_trimmed|].
    apply trimmed_trim, trim_trimmed.
  - intros s. apply trimmed_trim, trim_trimmed.
  - unfold addLinkDisabled, addUrl. simpl. rewrite negb_involutive.
    intros ->. reflexivity.
Qed.

End LinkFacts.

Lemma addUrl_record_trimmed_witness :
  In {| id := fresh_id same_draw; name := lit "https://example.com/paper";
        type := url; content := lit "https://example.com/paper" |}
     (files (fst (addUrl (host := Demo.host) same_draw
                    (typed (lit " https://example.com/paper ")))))
  /\ Js.trim (lit "https://example.com/paper") = lit "https://example.com/paper".
Proof.
  assert (I : In {| id := fresh_id same_draw;
                    name := lit "https://example.com/paper";
                    type := url; content := lit "https://example.com/paper" |}
                 (files (fst (addUrl (host := Demo.host) same_draw
                                (typed (lit " https://example.com/paper "))))))
    by (left; reflexivity).
  split; [exact I|].
  destruct (addUrl_record_trimmed (host := Demo.host) same_draw
              (typed (lit " https://example.com/paper ")) _ I)
    as ([[]|(_ & _ & _ & _ & T)] & _).
  exact T.
Defined.

(** ** The copied indicator over time *)

Lemma fire_or_keep (t : N) (ts : list (N * Callback)) :
  (exists timer, In timer ts /\ (fst timer <= t)%N)
  \/ (forall timer, In timer ts -> (t < fst timer)%N).
Proof.
  induction ts as [|timer ts [(x & I & D)|K]].
  - right. intros timer [].
  - left. exists x. split; [right; exact I | exact D].
  - destruct (N.leb_spec (fst timer) t) as [D|D].
    + left. exists timer. split; [left; reflexivity | exact D].
    + right. intros x [<-|I]; [exact D | exact (K x I)].
Qed.

Lemma filter_none_due (t : N) (ts : list (N * Callback)) :
  (forall timer, In timer ts -> (t < fst timer)%N) ->
  filter (fun timer => negb (fst timer <=? t)%N) ts = ts.
Proof.
  intros K. apply filter_all. intros timer I. apply negb_true_iff, N.leb_gt.
  exact (K timer I).
Qed.

Lemma filter_all_due (t : N) (ts : list (N * Callback)) :
  (forall timer, In timer ts -> (fst timer <= t)%N) ->
  filter (fun timer => negb (fst timer <=? t)%N) ts = [].
Proof.
  induction ts as [|timer ts IH]; intros K; [reflexivity|]. simpl.
  assert (D : (fst timer <=? t)%N = true)
    by (apply N.leb_le, K; left; reflexivity).
  rewrite D. simpl. apply IH. intros x I. apply K. right. exact I.
Qed.

Lemma ticking_elapse (t : N) (w : World) : ticking w -> ticking (elapse t w).
Proof.
  intros (B & S). unfold ticking, elapse. simpl. split.
  - intros timer I. apply filter_In in I as (I & D).
    apply negb_true_iff, N.leb_gt in D. destruct (B timer I). lia.
  - destruct (fire_or_keep t (timers w)) as [D|K].
    + intros C. exfalso. apply C. apply fire_due. exact D.
    + rewrite (fire_none_due t (timers w) (page w) K), (filter_none_due t _ K).
      exact S.
Qed.

Lemma ticking_copy (text target : Str) (w : World) :
  ticking w -> ticking (dispatch (copyToClipboard text target) w).
Proof.
  intros (B & S). rewrite dispatch_copy. unfold ticking. simpl. split.
  - intros timer I. apply In_schedule in I as [->|I]; [simpl; lia | exact (B timer I)].
  - intros _ C.
    assert (I : In ((clock w + 2000)%N, ClearCopied)
                   (schedule (clock w + 2000) ClearCopied (timers w)))
      by (apply In_schedule; left; reflexivity).
    rewrite C in I. exact I.
Qed.

Lemma ticking_copies (es : list (N * (Str * Str))) : ticking (copies es).
Proof.
  unfold copies.
  assert (G : forall w, ticking w -> ticking (fold_left copy_at es w)).
  { induction es as [|e es IH]; intros w T; [exact T|].
    simpl. apply IH. unfold copy_at, at_time.
    apply ticking_copy, ticking_elapse, T. }
  apply G. split; [intros timer [] | intros C; exfalso; apply C; reflexivity].
Qed.

Lemma copies_snoc (es : list (N * (Str * Str))) (e : N * (Str * Str)) :
  copies (es ++ [e]) = copy_at (copies es) e.
Proof. unfold copies. rewrite fold_left_app. reflexivity. Qed.

(** X9: after any sequence of copies, made at any times, every pending
    expiry is due within the next 2000 ms and a shown indicator has one
    pending, so an indicator never stays for good: once 2000 ms have passed
    with no further copy it is neutral and no expiry is left.  Until then
    the indicator is either neutral or the target of the last copy, never
    an earlier target. *)
Theorem copies_expire (es : list (N * (Str * Str))) :
  (forall timer, In timer (timers (copies es)) ->
     (clock (copies es) < fst timer)%N
     /\ (fst timer <= clock (copies es) + 2000)%N)
  /\ (copiedIndex (page (copies es)) <> None -> timers (copies es) <> [])
  /\ (forall t, (clock (copies es) + 2000 <= t)%N ->
        copiedIndex (page (elapse t (copies es))) = None
        /\ timers (elapse t (copies es)) = [])
  /\ (forall e t,
        copiedIndex (page (copies (es ++ [e]))) = Some (snd (snd e))
        /\ (copiedIndex (page (elapse t (copies (es ++ [e])))) = None
            \/ copiedIndex (page (elapse t (copies (es ++ [e]))))
               = Some (snd (snd e)))).
Proof.
  destruct (ticking_copies es) as (B & S).
  split; [exact B|]. split; [exact S|]. split.
  - intros t Ht.
    assert (D : forall timer, In timer (timers (copies es)) -> (fst timer <= t)%N)
      by (intros timer I; destruct (B timer I); lia).
    split; [|apply filter_all_due; exact D].
    unfold elapse. simpl. destruct (timers (copies es)) as [|timer ts] eqn:Q.
    + simpl. destruct (copiedIndex (page (copies es))) eqn:C; [|reflexivity].
      exfalso. apply S; [discriminate | reflexivity].
    + apply fire_due. exists timer. split; [left; reflexivity|].
      apply D. left. reflexivity.
  - intros e t.
    assert (L : copiedIndex (page (copies (es ++ [e]))) = Some (snd (snd e)))
      by (rewrite copies_snoc; unfold copy_at, at_time;
          rewrite dispatch_copy; reflexivity).
    split; [exact L|]. unfold elapse. simpl.
    destruct (fire_or_keep t (timers (copies (es ++ [e])))) as [D|K].
    + left. apply fire_due. exact D.
    + right. rewrite fire_none_due by exact K. exact L.
Qed.

(** ** Starting over, the table, the badges, the copy buttons *)

Section DashboardFacts.

Context {host : Host}.







(** X12: a statistics card shows at most three badges, the first three
    elements of its list in the list's order, and all of them when there are
    three or fewer; a list that is missing, at whichever level of the
    result, gives no badge. *)
Theorem badges_first_three (k : Str) (st : App) :
  (forall bs, badges k st = Some bs -> (List.length bs <= 3)%nat)
  /\ (forall es,
        get_opt (get_opt (get_opt (result st) (lit "metadata"))
                         (lit "summary_statistics")) k = VArray es ->
        badges k st = Some (firstn 3 es)
        /\ (exists rest, es = firstn 3 es ++ rest)
        /\ ((List.length es <= 3)%nat -> badges k st = Some es))
  /\ (get_opt (result st) (lit "metadata") = VUndefined
      \/ get_opt (get_opt (result st) (lit "metadata"))
                 (lit "summary_statistics") = VUndefined
      \/ get_opt (get_opt (get_opt (result st) (lit "metadata"))
                          (lit "summary_statistics")) k = VUndefined ->
      badges k st = Some []).
Proof.
  unfold badges. split; [|split].
  - intros bs.
    destruct (nullish _ _) as [| | | | |es|]; try discriminate.
    intros E. assert (B : bs = firstn 3 es) by congruence.
    rewrite B. apply firstn_le_length.
  - intros es ->. cbn [nullish]. split; [reflexivity|]. split.
    + exists (skipn 3 es). symmetry. apply firstn_skipn.
    + intros L. rewrite firstn_all2 by exact L. reflexivity.
  - intros [-> | [-> | ->]]; reflexivity.
Qed.

(** X13: a copy button is enabled exactly when the export of the same field
    downloads a file; the JSON copy marks its own button as copied, asks for
    one expiry 2000 ms later, and puts on the clipboard the text the JSON
    tab shows, which, whenever the button is enabled, is the text the JSON
    export writes. *)
Theorem copy_buttons_follow_exports (iso : Str) (st : App) :
  (copyMarkdownDisabled st = false
   <-> exists file fname, snd (exportMarkdown iso st) = [Download file fname])
  /\ (copyJsonDisabled st = false
      <-> exists file fname, snd (exportJSON iso st) = [Download file fname])
  /\ copyJsonClick st
     = (setCopiedIndex (Some (lit "json")) st,
        [ClipboardWrite (structuredView st); SetTimeout ClearCopied 2000])
  /\ (copyJsonDisabled st = false ->
      forall file fname, In (Download file fname) (snd (exportJSON iso st)) ->
      blob_text (blobParts file) = Some (structuredView st)).
Proof.
  unfold copyMarkdownDisabled, copyJsonDisabled, exportMarkdown, exportJSON.
  split; [|split; [|split]].
  - destruct (ToBoolean (get_opt (result st) (lit "markdown_output"))); simpl.
    + split; [intros _; eexists _, _; reflexivity | reflexivity].
    + split; [discriminate | intros (file & fname & C); discriminate].
  - destruct (ToBoolean (get_opt (result st) (lit "json_output"))); simpl.
    + split; [intros _; eexists _, _; reflexivity | reflexivity].
    + split; [discriminate | intros (file & fname & C); discriminate].
  - reflexivity.
  - destruct (ToBoolean (get_opt (result st) (lit "json_output"))) eqn:T;
      simpl; [|discriminate].
    intros _ file fname [E|[]]. injection E as <- _. simpl.
    rewrite app_nil_r. unfold structuredView.
    rewrite nullish_truthy by exact T. reflexivity.
Qed.

End DashboardFacts.


Lemma badges_first_three_witness :
  badges (lit "research_themes") (showing sample_result)
  = Some [VString (lit "a"); VString (lit "b"); VString (lit "c")].
Proof.
  destruct (badges_first_three (lit "research_themes") (showing sample_result))
    as (_ & Harray & _).
  destruct (Harray [VString (lit "a"); VString (lit "b"); VString (lit "c");
                    VString (lit "d")] eq_refl) as (Hthree & _).
  exact Hthree.
Defined.

Lemma copy_buttons_follow_exports_witness :
  copyJsonDisabled (host := Demo.host) (showing sample_result) = false
  /\ exists file fname,
       snd (exportJSON (host := Demo.host) (lit "2026-11-02T09:30:00.000Z")
              (showing sample_result))
       = [Download file fname].
Proof.
  split; [reflexivity|].
  destruct (copy_buttons_follow_exports (host := Demo.host)
              (lit "2026-11-02T09:30:00.000Z") (showing sample_result))
    as (_ & Hjson & _).
  apply Hjson. reflexivity.
Defined.

Lemma copies_expire_witness :
  (clock (copies [(0, (lit "# Title", lit "markdown"));
                  (1500, (lit "{}", lit "json"))]) + 2000 <= 3500)%N
  /\ copiedIndex
       (page (elapse 3500 (copies [(0, (lit "# Title", lit "markdown"));
                                   (1500, (lit "{}", lit "json"))])))%N
     = None
  /\ timers (elapse 3500 (copies [(0, (lit "# Title", lit "markdown"));
                                  (1500, (lit "{}", lit "json"))]))%N
     = [].
Proof.
  assert (L : (clock (copies [(0, (lit "# Title", lit "markdown"));
                              (1500, (lit "{}", lit "json"))]) + 2000
               <= 3500)%N) by reflexivity.
  split; [exact L|].
  destruct (copies_expire [(0%N, (lit "# Title", lit "markdown"));
                           (1500%N, (lit "{}", lit "json"))])
    as (_ & _ & Hgone & _).
  exact (Hgone 3500%N L).
Defined.

(** ** The payload of a grown registry *)

(** X14: the payload of two registries put end to end is the payload of the
    first, a blank line, and the payload of the second, so a record added at
    the end adds one blank line and its own line and leaves what precedes
    untouched; the payload of an empty registry is the empty text. *)
Theorem formattedInput_app (f g : UploadedFile) (fs gs : list UploadedFile) :
  formattedInput ((f :: fs) ++ g :: gs)
  = formattedInput (f :: fs) ++ [10; 10]%N ++ formattedInput (g :: gs)
  /\ formattedInput ((f :: fs) ++ [g])
     = formattedInput (f :: fs) ++ [10; 10]%N ++ line g
  /\ formattedInput [] = [].
Proof.
  assert (E : formattedInput ((f :: fs) ++ g :: gs)
              = formattedInput (f :: fs) ++ [10; 10]%N ++ formattedInput (g :: gs)).
  { unfold formattedInput. cbn [app map]. rewrite !join_cons, map_app.
    cbn [map]. rewrite flat_map_app. cbn [flat_map].
    rewrite <- !app_assoc. reflexivity. }
  split; [exact E|]. split; [|reflexivity].
  assert (S : formattedInput [g] = line g)
    by (unfold formattedInput; simpl; apply format_file_line).
  rewrite <- S. unfold formattedInput. cbn [app map].
  rewrite !join_cons, map_app. cbn [map]. rewrite flat_map_app.
  cbn [flat_map]. rewrite <- !app_assoc. reflexivity.
Qed.
